(** * The trajectory comparison and grading engine of [disected_mmDTW.py]

    A shallow embedding of the core functions of the physiotherapy dashboard:
    [get_rom_grade], [get_shape_grade], [calculate_rom_metrics],
    [calculate_mdtw_with_sensitivity] and the status lines of
    [generate_therapist_report], together with the properties the
    specification states about them.

    The Python code computes on numpy [float64] values; a recording whose
    cells are all whole numbers reaches it as an [int64] array, which numpy
    converts where an operation asks for it.  Every function is written once,
    over an interface [Number] of the operations the source uses on floats,
    and read at two instances:
    - [float], Rocq's primitive binary64 numbers: what the program runs on,
      NaN and infinities included; terms compute.
    - [R], the real numbers: the reading the specification speaks about
      ("defined for all real inputs"), used for statements quantified over
      all inputs where binary64 rounding is not the point. *)

From Stdlib Require Import ZArith QArith Reals Lra Lia Floats List Bool Ascii String.
From stdpp Require Import base option list strings.

Set Default Proof Using "Type".
Set Warnings "-inexact-float".

(** ** Numbers *)

(** The operations of a Python/numpy float the engine relies on.  [lit q] is
    the value a decimal literal (or an [int] promoted to [float]) denotes;
    [ltb], [leb] and [eqb] are [<], [<=] and [==]. *)
Class Number (T : Type) : Type := {
  lit : Q -> T;
  add : T -> T -> T;
  sub : T -> T -> T;
  mul : T -> T -> T;
  div : T -> T -> T;
  opp : T -> T;
  sqrt : T -> T;
  rint : T -> T;
  ltb : T -> T -> bool;
  leb : T -> T -> bool;
  eqb : T -> T -> bool
}.

Arguments lit {T _} q%_Q.

Declare Scope num_scope.
Delimit Scope num_scope with num.
Notation "x + y" := (add x y) : num_scope.
Notation "x - y" := (sub x y) : num_scope.
Notation "x * y" := (mul x y) : num_scope.
Notation "x / y" := (div x y) : num_scope.
Notation "- x" := (opp x) : num_scope.
Notation "x <? y" := (ltb x y) : num_scope.
Notation "x <=? y" := (leb x y) : num_scope.
Notation "x >? y" := (ltb y x) : num_scope.
Notation "x >=? y" := (leb y x) : num_scope.
Notation "x =? y" := (eqb x y) : num_scope.

(** *** binary64 *)

Module F64.

Definition of_Z (z : Z) : float :=
  match z with
  | Zneg p => PrimFloat.opp (PrimFloat.of_uint63 (Uint63.of_Z (Zpos p)))
  | _ => PrimFloat.of_uint63 (Uint63.of_Z z)
  end.

(** A decimal literal is the binary64 number nearest to it: the correctly
    rounded quotient of two exactly represented integers. *)
Definition of_Q (q : Q) : float :=
  PrimFloat.div (of_Z (Qnum q)) (of_Z (Zpos (Qden q))).

Definition two52 : float := 4503599627370496%float.

(** C's [rint] in the default rounding mode (what [np.rint] calls): below
    2^52 in magnitude, adding and subtracting 2^52 rounds to the nearest
    integer, ties to even; from 2^52 on every binary64 number is an
    integer.  A NaN fails the first test and is returned. *)
Definition rint (x : float) : float :=
  let a := PrimFloat.abs x in
  if PrimFloat.ltb a two52 then
    let r := PrimFloat.sub (PrimFloat.add a two52) two52 in
    if PrimFloat.ltb x 0%float then PrimFloat.opp r else r
  else x.

Definition is_nan (x : float) : bool := negb (PrimFloat.eqb x x).

End F64.

#[export] Instance float_number : Number float := {|
  lit := F64.of_Q;
  add := PrimFloat.add;
  sub := PrimFloat.sub;
  mul := PrimFloat.mul;
  div := PrimFloat.div;
  opp := PrimFloat.opp;
  sqrt := PrimFloat.sqrt;
  rint := F64.rint;
  ltb := PrimFloat.ltb;
  leb := PrimFloat.leb;
  eqb := PrimFloat.eqb
|}.

(** *** Real numbers *)

Module Real.

Definition ltb (x y : R) : bool := if Rlt_dec x y then true else false.
Definition leb (x y : R) : bool := if Rle_dec x y then true else false.
Definition eqb (x y : R) : bool := if Req_dec_T x y then true else false.

(** Nearest integer, ties to even. *)
Definition rint (x : R) : R :=
  let f := Int_part x in
  let d := (x - IZR f)%R in
  if Rlt_dec d (1 / 2) then IZR f
  else if Rlt_dec (1 / 2) d then IZR (f + 1)
  else if Z.even f then IZR f else IZR (f + 1).

End Real.

#[export] Instance real_number : Number R := {|
  lit := Q2R;
  add := Rplus;
  sub := Rminus;
  mul := Rmult;
  div := Rdiv;
  opp := Ropp;
  sqrt := R_sqrt.sqrt;
  rint := Real.rint;
  ltb := Real.ltb;
  leb := Real.leb;
  eqb := Real.eqb
|}.

(** ** Grade policy *)

Section Grades.

Context {T : Type} `{Number T}.
Local Open Scope num_scope.

(** [get_rom_grade(ratio)]: the grade of ONE per-axis ROM ratio.  The
    Python function ends after the fourth [if] without a [return]: when no
    branch is taken the caller receives Python's [None], here [None]. *)
Definition get_rom_grade (ratio : T) : option Z :=
  if (ratio <? lit 0.50) || (ratio >? lit 1.50) then Some 0%Z
  else if (lit 0.95 <=? ratio) && (ratio <=? lit 1.05) then Some 10%Z
  else if ratio <? lit 0.95 then
    if ratio >=? lit 0.90 then Some 9%Z
    else if ratio >=? lit 0.70 then Some 8%Z
    else Some 7%Z
  else if ratio >? lit 1.05 then
    if ratio <=? lit 1.10 then Some 9%Z
    else if ratio <=? lit 1.30 then Some 8%Z
    else Some 7%Z
  else None.

(** [get_shape_grade(rmse, limit)]. *)
Definition get_shape_grade (rmse limit : T) : Z :=
  if rmse >? limit then 0%Z
  else
    let step := limit / lit 5.0 in
    if rmse <=? step then 10%Z
    else if rmse <=? step * lit 2 then 9%Z
    else if rmse <=? step * lit 3 then 8%Z
    else if rmse <=? step * lit 4 then 7%Z
    else 6%Z.

End Grades.

(** ** Arrays and the store *)

(** A row of an N x 3 array, or a 1-D array of three numbers (one per axis). *)
Record vec3 (T : Type) : Type := V3 { c0 : T; c1 : T; c2 : T }.
Arguments V3 {T} c0 c1 c2.
Arguments c0 {T} v.
Arguments c1 {T} v.
Arguments c2 {T} v.

Definition vmap {A B : Type} (f : A -> B) (v : vec3 A) : vec3 B :=
  V3 (f (c0 v)) (f (c1 v)) (f (c2 v)).

Definition vmap2 {A B C : Type} (f : A -> B -> C) (u : vec3 A) (v : vec3 B) : vec3 C :=
  V3 (f (c0 u) (c0 v)) (f (c1 u) (c1 v)) (f (c2 u) (c2 v)).

Definition vlist {A : Type} (v : vec3 A) : list A := [c0 v; c1 v; c2 v].

(** The numpy arrays of the engine: trajectories are N x 3 ([extract_hand_data]
    selects exactly three columns), per-axis results have shape (3,).  An
    array has one element type: [float64] ([Mat], [Vec]) or [int64] ([IMat],
    [IVec], the elements as integers between -2^63 and 2^63 - 1). *)
Inductive ndarray (T : Type) : Type :=
| Mat (rows : list (vec3 T))
| Vec (v : vec3 T)
| IMat (rows : list (vec3 Z))
| IVec (v : vec3 Z).
Arguments Mat {T} rows.
Arguments Vec {T} v.
Arguments IMat {T} rows.
Arguments IVec {T} v.

(** [int64] arithmetic wraps around. *)
Definition wrap64 (z : Z) : Z := ((z + 2 ^ 63) mod 2 ^ 64 - 2 ^ 63)%Z.

(** The cast of a float literal to [int64], as an assignment into an [int64]
    array makes it: the fraction is cut off. *)
Definition Qtrunc (q : Q) : Z := (Qnum q ÷ Zpos (Qden q))%Z.

(** Python exceptions that the modelled operations can raise. *)
Inductive exn : Type :=
| ValueError      (* reduction of a zero-size array *)
| IndexError      (* index out of bounds *)
| TypeError       (* arithmetic on [None], wrong kind of array *)
| LibraryError.   (* raised inside the alignment library *)

Inductive result (A : Type) : Type :=
| Ok (a : A)
| Raise (e : exn).
Arguments Ok {A} a.
Arguments Raise {A} e.

(** Arrays live in a store and are passed by reference: a location is an index
    into the store, allocation appends. *)
Abbreviation loc := nat (only parsing).
Abbreviation store T := (list (ndarray T)) (only parsing).

Definition M (T A : Type) : Type := store T -> result (A * store T).

Section Monad.

Context {T : Type}.

Definition ret {A : Type} (a : A) : M T A := fun s => Ok (a, s).

Definition bind {A B : Type} (m : M T A) (k : A -> M T B) : M T B :=
  fun s => match m s with
           | Ok (a, s') => k a s'
           | Raise e => Raise e
           end.

Definition raise {A : Type} (e : exn) : M T A := fun _ => Raise e.

Definition lift {A : Type} (r : result A) : M T A :=
  fun s => match r with Ok a => Ok (a, s) | Raise e => Raise e end.

Definition alloc (a : ndarray T) : M T loc :=
  fun s => Ok (length s, s ++ [a]).

Definition read (l : loc) : M T (ndarray T) :=
  fun s => match s !! l with
           | Some a => Ok (a, s)
           | None => Raise TypeError
           end.

Definition read_mat (l : loc) : M T (list (vec3 T)) :=
  fun s => match s !! l with
           | Some (Mat rows) => Ok (rows, s)
           | _ => Raise TypeError
           end.

Definition read_vec (l : loc) : M T (vec3 T) :=
  fun s => match s !! l with
           | Some (Vec v) => Ok (v, s)
           | _ => Raise TypeError
           end.

(** In-place update of the array at [l]. *)
Definition write (l : loc) (a : ndarray T) : M T unit :=
  fun s => match s !! l with
           | Some _ => Ok (tt, <[l := a]> s)
           | None => Raise TypeError
           end.

End Monad.

#[export] Instance M_ret {T : Type} : MRet (M T) := @ret T.
#[export] Instance M_bind {T : Type} : MBind (M T) := fun A B k m => bind m k.

(** ** numpy primitives *)

Section Numpy.

Context {T : Type} `{Number T}.
Local Open Scope num_scope.

Definition isnan (x : T) : bool := negb (x =? x).

(** [np.maximum] and [np.minimum] of two scalars; a NaN in the running
    value stays, a NaN in the new value fails both tests and is taken. *)
Definition np_maximum (a b : T) : T := if (a >=? b) || isnan a then a else b.
Definition np_minimum (a b : T) : T := if (a <=? b) || isnan a then a else b.

Definition of_nat (n : nat) : T := lit (inject_Z (Z.of_nat n)).
Definition of_int (z : Z) : T := lit (inject_Z z).

(** The conversion of an [int64] element to [float64]: the nearest float.
    [lit] reads an integer through its magnitude, which for the least
    [int64] is one past the largest: that one is written as a product. *)
Definition of_int64 (z : Z) : T :=
  if (z =? - 2 ^ 63)%Z then - (of_int (2 ^ 62) * of_int 2) else of_int z.

(** The elements of an array as floats, where numpy computes in [float64]
    whatever the element type: true division and means. *)
Definition read_rows (l : loc) : M T (list (vec3 T)) :=
  a ← read l;
  match a with
  | Mat rows => ret rows
  | IMat rows => ret (map (vmap of_int64) rows)
  | Vec _ | IVec _ => raise TypeError
  end.

Definition read_axes (l : loc) : M T (vec3 T) :=
  a ← read l;
  match a with
  | Vec v => ret v
  | IVec v => ret (vmap of_int64 v)
  | Mat _ | IMat _ => raise TypeError
  end.

(** [np.ptp(data, axis=0)]: a new array of the per-axis peak-to-peak ranges,
    of the element type of [data].  The reductions have no identity: a
    zero-size array raises. *)
Definition peak_to_peak (r : vec3 T) (rs : list (vec3 T)) : vec3 T :=
  vmap2 sub (fold_left (vmap2 np_maximum) rs r)
            (fold_left (vmap2 np_minimum) rs r).

Definition int_peak_to_peak (r : vec3 Z) (rs : list (vec3 Z)) : vec3 Z :=
  vmap wrap64 (vmap2 Z.sub (fold_left (vmap2 Z.max) rs r)
                           (fold_left (vmap2 Z.min) rs r)).

Definition np_ptp (data : loc) : M T loc :=
  a ← read data;
  match a with
  | Mat [] | IMat [] => raise ValueError
  | Mat (r :: rs) => alloc (Vec (peak_to_peak r rs))
  | IMat (r :: rs) => alloc (IVec (int_peak_to_peak r rs))
  | Vec _ | IVec _ => raise TypeError
  end.

(** [a[a == 0] = v] with [v] a float literal: masked assignment, in place.
    The array keeps its element type: a [float64] array stores the literal,
    an [int64] array stores the literal cast to [int64]. *)
Definition where_zero (v : T) (x : vec3 T) : vec3 T :=
  vmap (fun e => if e =? lit 0 then v else e) x.

Definition int_where_zero (v : Z) (x : vec3 Z) : vec3 Z :=
  vmap (fun e => if (e =? 0)%Z then v else e) x.

Definition setitem_where_zero (a : loc) (v : Q) : M T unit :=
  x ← read a;
  match x with
  | Vec x => write a (Vec (where_zero (lit v) x))
  | IVec x => write a (IVec (int_where_zero (Qtrunc v) x))
  | Mat _ | IMat _ => raise TypeError
  end.

(** [a / b] on two arrays of shape (3,): true division, a new [float64]
    array whatever the element types. *)
Definition np_divide (a b : loc) : M T loc :=
  x ← read_axes a;
  y ← read_axes b;
  alloc (Vec (vmap2 div x y)).

(** [np.mean(a)] of an array of shape (3,): a scalar. *)
Definition mean3 (x : vec3 T) : T := (c0 x + c1 x + c2 x) / of_nat 3.

Definition np_mean (a : loc) : M T T :=
  x ← read_axes a;
  ret (mean3 x).

(** [np.mean(a, axis=0)] of an N x 3 array: a new array of shape (3,), the
    rows added in order and divided by N (0/0 for a zero-size array, which
    numpy reports by a warning, not an exception). *)
Definition mean_rows (rows : list (vec3 T)) : vec3 T :=
  let total := match rows with
               | [] => V3 (lit 0) (lit 0) (lit 0)
               | r :: rs => fold_left (vmap2 add) rs r
               end in
  vmap (fun t => t / of_nat (length rows)) total.

Definition np_mean_axis0 (a : loc) : M T loc :=
  rows ← read_rows a;
  alloc (Vec (mean_rows rows)).

(** [a - m] with [a] N x 3 and [m] of shape (3,), broadcast over the rows:
    a new array, [int64] when both are, [float64] otherwise. *)
Definition subtract_rows (rows : list (vec3 T)) (mu : vec3 T) : list (vec3 T) :=
  map (fun r => vmap2 sub r mu) rows.

Definition int_subtract_rows (rows : list (vec3 Z)) (mu : vec3 Z)
    : list (vec3 Z) :=
  map (fun r => vmap wrap64 (vmap2 Z.sub r mu)) rows.

Definition np_subtract (a m : loc) : M T loc :=
  x ← read a;
  y ← read m;
  match x, y with
  | IMat rows, IVec mu => alloc (IMat (int_subtract_rows rows mu))
  | _, _ =>
      rows ← read_rows a;
      mu ← read_axes m;
      alloc (Mat (subtract_rows rows mu))
  end.

(** ** ROM metrics *)

(** [calculate_rom_metrics(ref_data, pat_data)].  Returns the mean ratio
    and (the location of) the array of per-axis ratios. *)
Definition calculate_rom_metrics (ref_data pat_data : loc) : M T (T * loc) :=
  ref_range ← np_ptp ref_data;
  pat_range ← np_ptp pat_data;
  _ ← setitem_where_zero ref_range 1e-6;
  ratios ← np_divide pat_range ref_range;
  avg_rom_ratio ← np_mean ratios;
  ret (avg_rom_ratio, ratios).

End Numpy.

Arguments setitem_where_zero {T _} a v%_Q.

(** ** Alignment and error metrics *)

Section Engine.

Context {T : Type} `{Number T}.
Local Open Scope num_scope.

(** [np.exp], which calls the C library: a parameter. *)
Variable np_exp : T -> T.

(** [tslearn.metrics.dtw_path(a, b, global_constraint="sakoe_chiba",
    sakoe_chiba_radius=radius)]: a library call that reads the two arrays and
    returns the alignment path and its distance, or raises.  A parameter
    here; [banded_dtw] below is one such aligner. *)
Variable dtw_path :
  list (vec3 T) -> list (vec3 T) -> Z -> result (list (nat * nat) * T).

(** [round(x, 2)] on a numpy scalar: scale, [rint], scale back. *)
Definition np_round2 (x : T) : T := rint (x * of_nat 100) / of_nat 100.

(** One turn of the loop [for (i, j) in optimal_path]: the three running sums
    of squared per-axis differences. *)
Definition sq_err_step (template_centered query_centered : list (vec3 T))
    (acc : result (vec3 T)) (ij : nat * nat) : result (vec3 T) :=
  match acc with
  | Raise e => Raise e
  | Ok sq =>
      match template_centered !! ij.1, query_centered !! ij.2 with
      | Some t, Some q =>
          Ok (vmap2 add sq (vmap (fun d => d * d) (vmap2 sub t q)))
      | _, _ => Raise IndexError
      end
  end.

(** [calculate_mdtw_with_sensitivity(template, query, sensitivity, radius)]:
    returns the score, the global RMSE and the three per-axis RMSEs. *)
Definition calculate_mdtw_with_sensitivity (template query : loc)
    (sensitivity : T) (radius : Z) : M T (T * T * vec3 T) :=
  (* 1. mean-centering *)
  template_mean ← np_mean_axis0 template;
  template_centered ← np_subtract template template_mean;
  query_mean ← np_mean_axis0 query;
  query_centered ← np_subtract query query_mean;
  (* 2. the alignment path *)
  tc ← read_mat template_centered;
  qc ← read_mat query_centered;
  aligned ← lift (dtw_path tc qc radius);
  let optimal_path := aligned.1 in
  let sim_dist := aligned.2 in
  (* 3. global RMSE *)
  let path_length := of_nat (length optimal_path) in
  let global_rmse := sim_dist / sqrt path_length in
  (* 4. per-axis RMSE along the path *)
  sq_err ← lift (fold_left (sq_err_step tc qc) optimal_path
                           (Ok (V3 (lit 0) (lit 0) (lit 0))));
  let axis_rmse := vmap (fun s => sqrt (s / path_length)) sq_err in
  (* 5. final score *)
  let final_score := lit 100 * np_exp (- sensitivity * global_rmse) in
  ret (np_round2 final_score, global_rmse, axis_rmse).

End Engine.

(** ** The aligner *)

Section DTW.

Context {T : Type} `{Number T}.
Local Open Scope num_scope.

(** Squared Euclidean distance over the three axes. *)
Definition sqdist (p q : vec3 T) : T :=
  let d := vmap2 sub p q in
  c0 d * c0 d + c1 d * c1 d + c2 d * c2 d.

(** The band, widened to the length difference so that the end cell can be
    reached. *)
Definition in_band (n m : nat) (radius : Z) (i j : nat) : bool :=
  (Z.abs (Z.of_nat i - Z.of_nat j)
   <=? Z.max radius (Z.abs (Z.of_nat n - Z.of_nat m)))%Z.

Inductive move : Type := Diag | Up | Left.

(** [better c d]: the candidate [d] is strictly cheaper than the current
    choice [c]; an unreachable cell ([None]) never wins. *)
Definition better (c d : option T) : bool :=
  match c, d with
  | _, None => false
  | None, Some _ => true
  | Some x, Some y => y <? x
  end.

(** The cheapest predecessor; on ties the diagonal, then [(i-1, j)], then
    [(i, j-1)]. *)
Definition best3 (diag up left : option T) : move * option T :=
  let c1 := if better diag up then (Up, up) else (Diag, diag) in
  if better c1.2 left then (Left, left) else c1.

(** Row [i] of the cumulative cost grid, left to right from column [j]:
    [prev] is row [i-1] from column [j] on, [diag] and [left] are the cells
    [(i-1, j-1)] and [(i, j-1)]. *)
Fixpoint dtw_row (n m : nat) (radius : Z) (p : vec3 T) (i : nat)
    (qs : list (vec3 T)) (j : nat) (diag left : option T)
    (prev : list (option T)) : list (option T) :=
  match qs with
  | [] => []
  | q :: qs' =>
      let up := mjoin (head prev) in
      let cell :=
        if in_band n m radius i j then
          match i, j with
          | O, O => Some (sqdist p q)
          | _, _ => match (best3 diag up left).2 with
                    | Some c => Some (sqdist p q + c)
                    | None => None
                    end
          end
        else None in
      cell :: dtw_row n m radius p i qs' (S j) up cell (tail prev)
  end.

Fixpoint dtw_grid (n m : nat) (radius : Z) (ps : list (vec3 T)) (i : nat)
    (qs : list (vec3 T)) (prev : list (option T)) : list (list (option T)) :=
  match ps with
  | [] => []
  | p :: ps' =>
      let row := dtw_row n m radius p i qs O None None prev in
      row :: dtw_grid n m radius ps' (S i) qs row
  end.

Definition cell (grid : list (list (option T))) (i j : nat) : option T :=
  row ← grid !! i; mjoin (row !! j).

(** Backtracking from [(i, j)] to [(0, 0)]; the path is built in forward
    order. *)
Fixpoint backtrack (grid : list (list (option T))) (fuel i j : nat)
    (path : list (nat * nat)) : list (nat * nat) :=
  let path' := (i, j) :: path in
  match fuel with
  | O => path'
  | S fuel' =>
      match i, j with
      | O, O => path'
      | O, S j' => backtrack grid fuel' O j' path'
      | S i', O => backtrack grid fuel' i' O path'
      | S i', S j' =>
          match (best3 (cell grid i' j') (cell grid i' j) (cell grid i j')).1 with
          | Diag => backtrack grid fuel' i' j' path'
          | Up => backtrack grid fuel' i' j path'
          | Left => backtrack grid fuel' i j' path'
          end
      end
  end.

(** Modelled from the spec: [dtw_path] is imported from the tslearn library
    (line 6 of the source) and its code is not part of the repository.  The
    algorithm is the one section 4.2 of the specification describes: a
    dynamic program over the cells with [|i - j| <= max(radius, |n - m|)],
    local cost the squared Euclidean distance, the fixed tie-break of
    [best3], backtracking from the end cell, and the square root of the end
    cell's cumulative cost as distance.  The dynamic program aligns any two
    non-empty sequences; with an empty one there is no end cell. *)
Definition banded_dtw (a b : list (vec3 T)) (radius : Z)
    : result (list (nat * nat) * T) :=
  let n := length a in
  let m := length b in
  let grid := dtw_grid n m radius a O b [] in
  match n, m with
  | S n', S m' =>
      match cell grid n' m' with
      | Some total => Ok (backtrack grid (n + m) n' m' [], sqrt total)
      | None => Raise LibraryError
      end
  | _, _ => Raise LibraryError
  end.

End DTW.

(** ** Status and the analysis pipeline *)

Inductive rom_status : Type :=
| CRITICAL_FAILURE   (* STATUS: CRITICAL FAILURE (Wrong Motion) *)
| EXCELLENT          (* STATUS: EXCELLENT ROM *)
| RESTRICTED         (* STATUS: RESTRICTED (Too Small) *)
| EXCESSIVE          (* STATUS: EXCESSIVE (Too Large) *)
| MILD_DEVIATION.    (* STATUS: MILD DEVIATION *)

(** What [run_analysis] (and the [/analyze] route) computes before the report
    is formatted. *)
Record analysis (T : Type) : Type := Analysis {
  score : T;
  global_rmse : T;
  axis_rmse : vec3 T;
  rom_ratio : T;
  rom_ratios : vec3 T;
  rom_axis_grades : list (option Z);
  avg_rom_grade : T;
  shape_grade : Z
}.
Arguments Analysis {T}.
Arguments score {T} a.
Arguments global_rmse {T} a.
Arguments axis_rmse {T} a.
Arguments rom_ratio {T} a.
Arguments rom_ratios {T} a.
Arguments rom_axis_grades {T} a.
Arguments avg_rom_grade {T} a.
Arguments shape_grade {T} a.

Section Report.

Context {T : Type} `{Number T}.
Local Open Scope num_scope.

(** The ROM status line of [generate_therapist_report]. *)
Definition rom_status_of (avg_rom_grade rom_ratio : T) : rom_status :=
  if avg_rom_grade <? lit 1 then CRITICAL_FAILURE
  else if avg_rom_grade >=? lit 9 then EXCELLENT
  else if rom_ratio <? lit 0.90 then RESTRICTED
  else if rom_ratio >? lit 1.10 then EXCESSIVE
  else MILD_DEVIATION.

(** [np.mean(rom_axis_grades)] of the Python list of grades: the grades are
    added as floats and divided by their number; a [None] among them cannot
    be added and numpy raises [TypeError]. *)
Definition grade_sum (acc : result T) (g : option Z) : result T :=
  match acc, g with
  | Ok s, Some z => Ok (s + of_int z)
  | Ok _, None => Raise TypeError
  | Raise e, _ => Raise e
  end.

Definition np_mean_grades (grades : list (option Z)) : result T :=
  match fold_left grade_sum grades (Ok (lit 0)) with
  | Ok s => Ok (s / of_nat (length grades))
  | Raise e => Raise e
  end.

Variable np_exp : T -> T.
Variable dtw_path :
  list (vec3 T) -> list (vec3 T) -> Z -> result (list (nat * nat) * T).

(** [run_analysis], from the loaded arrays to the graded quantities;
    [calculate_mdtw_with_sensitivity] is called with its default radius. *)
Definition run_analysis (ref_data pat_data : loc) (sensitivity shape_limit_m : T)
    : M T (analysis T) :=
  r ← calculate_mdtw_with_sensitivity np_exp dtw_path ref_data pat_data
        sensitivity 10;
  rom ← calculate_rom_metrics ref_data pat_data;
  ratios ← read_vec rom.2;
  let rom_axis_grades := map get_rom_grade (vlist ratios) in
  avg_rom_grade ← lift (np_mean_grades rom_axis_grades);
  let shape_grade := get_shape_grade r.1.2 shape_limit_m in
  mret (Analysis r.1.1 r.1.2 r.2 rom.1 ratios rom_axis_grades avg_rom_grade
                 shape_grade).

End Report.

(** ** Running the engine on two trajectories *)

Section Run.

Context {T : Type} `{Number T}.

(** The caller's store: the reference at location 0, the patient's recording
    at location 1. *)
Definition inputs (ref_data pat_data : list (vec3 T)) : store T :=
  [Mat ref_data; Mat pat_data].

Definition value {A : Type} (r : result (A * store T)) : result A :=
  match r with
  | Ok (a, _) => Ok a
  | Raise e => Raise e
  end.

(** The values [calculate_rom_metrics] returns, the ratios read back. *)
Definition rom_metrics (ref_data pat_data : list (vec3 T))
    : result (T * vec3 T) :=
  value ((r ← calculate_rom_metrics 0 1; v ← read_vec r.2; mret (r.1, v))
           (inputs ref_data pat_data)).

(** The values [calculate_mdtw_with_sensitivity] returns, aligned by
    [banded_dtw]. *)
Definition mdtw (np_exp : T -> T) (template query : list (vec3 T))
    (sensitivity : T) (radius : Z) : result (T * T * vec3 T) :=
  value (calculate_mdtw_with_sensitivity np_exp banded_dtw 0 1 sensitivity
           radius (inputs template query)).

Definition analyse (np_exp : T -> T) (ref_data pat_data : list (vec3 T))
    (sensitivity shape_limit_m : T) : result (analysis T) :=
  value (run_analysis np_exp banded_dtw 0 1 sensitivity shape_limit_m
           (inputs ref_data pat_data)).

(** The same three on two arrays of either element type. *)
Definition rom_metrics_of (ref_array pat_array : ndarray T)
    : result (T * vec3 T) :=
  value ((r ← calculate_rom_metrics 0 1; v ← read_vec r.2; mret (r.1, v))
           [ref_array; pat_array]).



End Run.

(** The worked scenario of the specification, as a [float64] array and, the
    numbers being whole, as the [int64] array numpy makes of them when no
    element type is asked for. *)
Definition line3 : list (vec3 float) :=
  [V3 0 0 0; V3 1 0 0; V3 2 0 0]%float.


(** ** Quantities the statements below speak about *)

Section Derived.

Context {T : Type} `{Number T}.
Local Open Scope num_scope.

(** A trajectory after step 1 of [calculate_mdtw_with_sensitivity]. *)
Definition centered (rows : list (vec3 T)) : list (vec3 T) :=
  subtract_rows rows (mean_rows rows).

(** The arrays [calculate_mdtw_with_sensitivity] allocates, in order. *)
Definition mdtw_arrays (template query : list (vec3 T)) : store T :=
  [Vec (mean_rows template); Mat (centered template);
   Vec (mean_rows query); Mat (centered query)].

(** Steps 3 to 5, from the aligner's answer and the three sums. *)
Definition mdtw_value (np_exp : T -> T) (sensitivity : T)
    (optimal_path : list (nat * nat)) (sim_dist : T) (sq_err : vec3 T)
    : T * T * vec3 T :=
  let path_length := of_nat (length optimal_path) in
  let global_rmse := sim_dist / sqrt path_length in
  (np_round2 (lit 100 * np_exp (- sensitivity * global_rmse)),
   global_rmse,
   vmap (fun s => sqrt (s / path_length)) sq_err).

(** The reference range after [ref_range[ref_range == 0] = 1e-6]. *)
Definition guarded_range (r : vec3 T) (rs : list (vec3 T)) : vec3 T :=
  where_zero (lit 1e-6) (peak_to_peak r rs).

Definition range_ratios (r : vec3 T) (rs : list (vec3 T))
    (p : vec3 T) (ps : list (vec3 T)) : vec3 T :=
  vmap2 div (peak_to_peak p ps) (guarded_range r rs).

(** The arrays [calculate_rom_metrics] leaves in the store, in order. *)
Definition rom_arrays (r : vec3 T) (rs : list (vec3 T))
    (p : vec3 T) (ps : list (vec3 T)) : store T :=
  [Vec (guarded_range r rs); Vec (peak_to_peak p ps);
   Vec (range_ratios r rs p ps)].



End Derived.

(** ** Sample trajectories over the reals *)

(** A straight stroke of one metre along x; the same stroke overshooting by
    twenty micrometres; a single-point recording. *)
Definition stroke : list (vec3 R) := [V3 0 0 0; V3 1 0 0]%R.
Definition stroke_off : list (vec3 R) := [V3 0 0 0; V3 (100002 / 100000) 0 0]%R.
Definition still : list (vec3 R) := [V3 0 0 0]%R.

(** The worked scenario, over the reals. *)
Definition line3_real : list (vec3 R) := [V3 0 0 0; V3 1 0 0; V3 2 0 0]%R.

(** ** The specification's formula for the shape grade *)

(** Section 4.5 in its own words, over the reals: grade 0 above the limit,
    otherwise [10 - floor(rmse / step)] with [step = limit / 5], clamped to
    [6, 10].  Compared with [get_shape_grade] below. *)
Definition shape_grade_by_floor (rmse limit : R) : Z :=
  if Rlt_dec limit rmse then 0%Z
  else Z.max 6 (Z.min 10 (10 - Int_part (rmse / (limit / 5)))).

(** ** Moving a trajectory *)

(** [data + c] with [data] N x 3 and [c] of shape (3,): the recording moved
    as a whole, as when the hand starts from another place. *)
Definition translate {T : Type} `{Number T} (c : vec3 T) (rows : list (vec3 T))
    : list (vec3 T) :=
  map (fun r => vmap2 add r c) rows.

(** ** The shape status *)

Inductive shape_axis : Type :=
| AxisX   (* MAIN ISSUE: Horizontal Path (X) *)
| AxisY   (* MAIN ISSUE: Vertical Path (Y) *)
| AxisZ.  (* MAIN ISSUE: Depth Control (Z) *)

Inductive shape_status : Type :=
| INCORRECT_SHAPE (main_issue : shape_axis)  (* STATUS: INCORRECT SHAPE (Mismatch) *)
| GOOD_SHAPE_MATCH.                          (* STATUS: GOOD SHAPE MATCH *)

Section ShapeStatus.

Context {T : Type} `{Number T}.
Local Open Scope num_scope.

(** Python's [max(a, b, c)]: the running maximum is replaced only by an item
    that compares greater. *)
Definition py_max3 (a b c : T) : T :=
  let m := if b >? a then b else a in
  if c >? m then c else m.

(** The shape status lines of [generate_therapist_report]. *)
Definition shape_status_of (shape_grade : Z) (axis_rmse : vec3 T) : shape_status :=
  let rmse_x := c0 axis_rmse in
  let rmse_y := c1 axis_rmse in
  let rmse_z := c2 axis_rmse in
  let max_err := py_max3 rmse_x rmse_y rmse_z in
  if (shape_grade =? 0)%Z then
    INCORRECT_SHAPE (if max_err =? rmse_x then AxisX
                     else if max_err =? rmse_y then AxisY
                     else AxisZ)
  else GOOD_SHAPE_MATCH.

End ShapeStatus.

(** ** Reading a recording *)

(** [str.upper()] on the ASCII letters; other characters are kept. *)
Definition upper_ascii (c : ascii) : ascii :=
  let n := nat_of_ascii c in
  if (97 <=? n)%nat && (n <=? 122)%nat then ascii_of_nat (n - 32) else c.

Fixpoint upper (s : string) : string :=
  match s with
  | EmptyString => EmptyString
  | String c s' => String (upper_ascii c) (upper s')
  end.

(** [needle in hay] on strings. *)
Fixpoint contains (needle hay : string) : bool :=
  String.prefix needle hay
  || match hay with
     | EmptyString => false
     | String _ hay' => contains needle hay'
     end.

(** [get_arm_side(filename)]. *)
Definition get_arm_side (filename : string) : string :=
  if contains "(L)" (upper filename) then "Left" else "Right".

(** A table as pandas loads it: the column names, and the rows, each giving
    the cell under a column name. *)
Record table (T : Type) : Type := Table {
  columns : list string;
  records : list (string -> T)
}.
Arguments Table {T} columns records.
Arguments columns {T} t.
Arguments records {T} t.

(** A cell of a numeric sheet as the reader parses it: a whole number (within
    [int64]) or a float, a blank cell being the float NaN.  A column all of
    whose cells are whole numbers is an [int64] column, any other column is
    a [float64] column, its whole numbers converted. *)
Inductive cell_value (T : Type) : Type :=
| IntCell (z : Z)
| FloatCell (x : T).
Arguments IntCell {T} z.
Arguments FloatCell {T} x.

(** What [extract_hand_data] gives: the N x 3 array, or [KeyError] when no
    schema fits, or the exception of the reader when the file cannot be read
    (the last one only where the file is read, in [load]). *)
Inductive extracted (T : Type) : Type :=
| Extracted (values : ndarray T)
| KeyError
| ReadError.
Arguments Extracted {T} values.
Arguments KeyError {T}.
Arguments ReadError {T}.

Section Extract.

Context {T : Type} `{Number T}.

(** The three column schemas, in the order they are tried. *)
Definition possible_cols (side : string) : list (vec3 string) :=
  [V3 (side +:+ " Hand x") (side +:+ " Hand y") (side +:+ " Hand z");
   V3 "Wrist_x" "Wrist_y" "Wrist_z";
   V3 "x" "y" "z"].

(** [all(col in df.columns for col in cols)]. *)
Definition has_cols (names : list string) (cols : vec3 string) : bool :=
  forallb (fun col => bool_decide (col ∈ names)) (vlist cols).

(** The loop over [possible_cols] with its [break]: the first schema whose
    columns are all there. *)
Definition selected_cols (side : string) (names : list string)
    : option (vec3 string) :=
  List.find (has_cols names) (possible_cols side).

Definition cell_isnan (c : cell_value T) : bool :=
  match c with
  | IntCell _ => false
  | FloatCell x => isnan x
  end.

(** A row that [dropna()] keeps: none of its three cells is a NaN. *)
Definition notna (row : vec3 (cell_value T)) : bool :=
  negb (cell_isnan (c0 row)) && negb (cell_isnan (c1 row))
  && negb (cell_isnan (c2 row)).

(** A cell in a [float64] array. *)
Definition cell_float (c : cell_value T) : T :=
  match c with
  | IntCell z => of_int64 z
  | FloatCell x => x
  end.

(** A row of three [int64] columns. *)
Definition int_row (row : vec3 (cell_value T)) : option (vec3 Z) :=
  match c0 row, c1 row, c2 row with
  | IntCell x, IntCell y, IntCell z => Some (V3 x y z)
  | _, _, _ => None
  end.

(** [df[selected_cols].dropna().values] on the rows under the selected
    columns: three [int64] columns (no cell to drop) give an [int64] array,
    anything else the [float64] array of the rows without a NaN.  A sheet
    without rows has no numbers to take a type from; it gives an empty array
    here, on which the reductions of the engine raise. *)
Definition dropna_values (selected : list (vec3 (cell_value T))) : ndarray T :=
  match mapM int_row selected with
  | Some rows => IMat rows
  | None => Mat (map (vmap cell_float) (List.filter notna selected))
  end.

(** [extract_hand_data(file_path)] once the file is read, from the base name
    of the path and the table. *)
Definition extract_hand_data (filename : string) (df : table (cell_value T))
    : extracted T :=
  let side := get_arm_side filename in
  match selected_cols side (columns df) with
  | None => KeyError
  | Some cols =>
      Extracted (dropna_values
                   (map (fun row : string -> cell_value T => vmap row cols)
                        (records df)))
  end.

End Extract.

(** ** The local server *)

(** [s.endswith(suffix)]. *)
Fixpoint endswith (suffix s : string) : bool :=
  String.eqb s suffix
  || match s with
     | EmptyString => false
     | String _ s' => endswith suffix s'
     end.

(** The request body of [/analyze], a JSON object: a missing key is [None],
    and the four values are the JSON values as they came, of a type [J],
    before the route tests or converts them. *)
Record request (J : Type) : Type := Request {
  patient_file : option J;
  template_file : option J;
  sensitivity_field : option J;
  shape_tolerance_field : option J
}.
Arguments Request {J}.
Arguments patient_file {J} r.
Arguments template_file {J} r.
Arguments sensitivity_field {J} r.
Arguments shape_tolerance_field {J} r.

(** The answers of [/analyze]: the analysis from which the 200 body is
    formatted, an error the route answers itself with its status code, or
    the 500 of the server when an exception leaves the route. *)
Inductive response (T : Type) : Type :=
| Ok200 (result : analysis T)
| BadRequest400 (error : string)
| NotFound404 (error : string)
| ServerError500
| InternalServerError500.
Arguments Ok200 {T} result.
Arguments BadRequest400 {T} error.
Arguments NotFound404 {T} error.
Arguments ServerError500 {T}.
Arguments InternalServerError500 {T}.

Section Server.

Context {T : Type} `{Number T}.
Local Open Scope num_scope.

(** The operating system and the libraries, as parameters: [os.path.join],
    [os.path.basename], [os.path.exists], the reader of a spreadsheet ([None]
    when both [pd.read_excel] and [pd.read_csv] raise), the plot ([false]
    when it raises), [np.exp], the aligner, and Python on a JSON value:
    [float] ([None] when it raises, as on a null or on a text that is no
    number), the truth value that [not] tests, and the text of a value that
    is a string ([None] for any other value, on which [os.path.join]
    raises). *)
Variable path_join : string -> string -> string.
Variable basename : string -> string.
Variable path_exists : string -> bool.
Variable read_table : string -> option (table (cell_value T)).
Variable build_comparison_figure :
  ndarray T -> ndarray T -> analysis T -> bool.
Variable J : Type.
Variable py_float : J -> option T.
Variable py_truth : J -> bool.
Variable py_str : J -> option string.
Variable np_exp : T -> T.
Variable dtw_path :
  list (vec3 T) -> list (vec3 T) -> Z -> result (list (nat * nat) * T).
Variable OUTPUT_FOLDER : string.
Variable TEMPLATES_FOLDER : string.

(** [max(items, key=key)] on a non-empty list: the first item is kept unless
    a later one has a greater key. *)
Definition py_max_by {A : Type} (key : A -> T) (first : A) (rest : list A) : A :=
  fold_left (fun best item => if key item >? key best then item else best)
            rest first.

(** [latest_file_in(folder, extension)], from the directory listing and the
    modification times. *)
Definition latest_file_in (listdir : list string) (getmtime : string -> T)
    (folder extension : string) : option string :=
  let files := map (path_join folder)
                   (List.filter (endswith extension) listdir) in
  match files with
  | [] => None
  | f :: fs => Some (py_max_by getmtime f fs)
  end.

(** [not name] for a field of the request: absent, or a value that counts
    as false (a null, an empty text). *)
Definition missing (name : option J) : bool :=
  match name with
  | None => true
  | Some v => negb (py_truth v)
  end.

(** [extract_hand_data] on a path: read, then select. *)
Definition load (path : string) : extracted T :=
  match read_table path with
  | None => ReadError
  | Some df => extract_hand_data (basename path) df
  end.

(** [float(data.get(key, default))]: the default when the key is absent,
    else [float] of the value, which can raise. *)
Definition float_field (default_value : T) (field : option J) : option T :=
  match field with
  | None => Some default_value
  | Some v => py_float v
  end.

(** The [/analyze] route.  The two conversions come first, and they and the
    two [os.path.join] are outside the [try]: an exception there leaves the
    route.  The numbers of the 200 body are those of the analysis, rounded
    for display by the route. *)
Definition analyze (data : request J) : response T :=
  match float_field (lit 3.0) (sensitivity_field data) with
  | None => InternalServerError500
  | Some sensitivity =>
  match float_field (lit 0.20) (shape_tolerance_field data) with
  | None => InternalServerError500
  | Some shape_tolerance =>
  if missing (patient_file data) || missing (template_file data) then
    BadRequest400 "patient_file and template_file are required"
  else
  (* the two [os.path.join], outside the [try] *)
  match patient_file data ≫= py_str with
  | None => InternalServerError500
  | Some patient =>
  match template_file data ≫= py_str with
  | None => InternalServerError500
  | Some template =>
    let pat_path := path_join OUTPUT_FOLDER patient in
    let ref_path := path_join TEMPLATES_FOLDER template in
    if negb (path_exists pat_path) then
      NotFound404 ("Patient file not found: " +:+ patient)
    else if negb (path_exists ref_path) then
      NotFound404 ("Template file not found: " +:+ template)
    else
      (* the [try] block: any exception becomes a 500 *)
      match load ref_path, load pat_path with
      | Extracted ref_data, Extracted pat_data =>
          match value (run_analysis np_exp dtw_path 0 1 sensitivity
                         shape_tolerance [ref_data; pat_data]) with
          | Ok result =>
              if build_comparison_figure ref_data pat_data result
              then Ok200 result else ServerError500
          | Raise _ => ServerError500
          end
      | _, _ => ServerError500
      end
  end
  end
  end
  end.

End Server.

Arguments float_field {T J} py_float default_value field.
Arguments missing {J} py_truth name.
Arguments analyze {T _} path_join basename path_exists read_table
  build_comparison_figure {J} py_float py_truth py_str np_exp dtw_path
  OUTPUT_FOLDER TEMPLATES_FOLDER data.

(** * Properties *)

(** ** The store *)

Section StoreFacts.

Context {T : Type}.
Implicit Types (s : store T) (a : ndarray T) (l : loc).

Lemma lookup_old s (ext : store T) l x : s !! l = Some x -> (s ++ ext) !! l = Some x.
Proof. intros Hl. rewrite lookup_app_l; [done | by eapply lookup_lt_Some]. Qed.

Lemma read_mat_at s l rows : s !! l = Some (Mat rows) -> read_mat l s = Ok (rows, s).
Proof. unfold read_mat. by intros ->. Qed.

Lemma read_vec_at s l v : s !! l = Some (Vec v) -> read_vec l s = Ok (v, s).
Proof. unfold read_vec. by intros ->. Qed.

Lemma read_at s l a : s !! l = Some a -> read l s = Ok (a, s).
Proof. unfold read. by intros ->. Qed.


End StoreFacts.

(** ** What a call does to the store *)

Section RunFacts.

Context {T : Type} `{Number T}.
Implicit Types (s : store T) (l : loc).

Lemma bind_ok {A B : Type} (m : M T A) (k : A -> M T B) s a s' :
  m s = Ok (a, s') -> (m ≫= k) s = k a s'.
Proof. unfold mbind, M_bind, bind. by intros ->. Qed.

Lemma bind_raise {A B : Type} (m : M T A) (k : A -> M T B) s e :
  m s = Raise e -> (m ≫= k) s = Raise e.
Proof. unfold mbind, M_bind, bind. by intros ->. Qed.

Lemma alloc_ext s (ext : store T) a :
  alloc a (s ++ ext) = Ok ((length s + length ext)%nat, s ++ (ext ++ [a])).
Proof. unfold alloc. by rewrite length_app, <- app_assoc. Qed.

Lemma lookup_ext s (ext : store T) k : (s ++ ext) !! (length s + k)%nat = ext !! k.
Proof. rewrite lookup_app_r by lia. f_equal. lia. Qed.

Lemma read_rows_at s l rows :
  s !! l = Some (Mat rows) -> read_rows l s = Ok (rows, s).
Proof.
  intros Hl. unfold read_rows. by erewrite bind_ok by (apply read_at, Hl).
Qed.

Lemma read_rows_int_at s l rows :
  s !! l = Some (IMat rows) ->
  read_rows l s = Ok (map (vmap of_int64) rows, s).
Proof.
  intros Hl. unfold read_rows. by erewrite bind_ok by (apply read_at, Hl).
Qed.

Lemma read_axes_at s l v : s !! l = Some (Vec v) -> read_axes l s = Ok (v, s).
Proof.
  intros Hl. unfold read_axes. by erewrite bind_ok by (apply read_at, Hl).
Qed.

Lemma read_axes_int_at s l v :
  s !! l = Some (IVec v) -> read_axes l s = Ok (vmap of_int64 v, s).
Proof.
  intros Hl. unfold read_axes. by erewrite bind_ok by (apply read_at, Hl).
Qed.

Lemma np_ptp_run s ext l r rs :
  s !! l = Some (Mat (r :: rs)) ->
  np_ptp l (s ++ ext)
  = Ok ((length s + length ext)%nat, s ++ (ext ++ [Vec (peak_to_peak r rs)])).
Proof.
  intros Hl. unfold np_ptp.
  erewrite bind_ok by (apply read_at, lookup_old, Hl).
  apply alloc_ext.
Qed.

Lemma np_ptp_int_run s ext l r rs :
  s !! l = Some (IMat (r :: rs)) ->
  np_ptp l (s ++ ext)
  = Ok ((length s + length ext)%nat,
        s ++ (ext ++ [IVec (int_peak_to_peak r rs)])).
Proof.
  intros Hl. unfold np_ptp.
  erewrite bind_ok by (apply read_at, lookup_old, Hl).
  apply alloc_ext.
Qed.


Lemma np_ptp_int_empty s l :
  s !! l = Some (IMat []) -> np_ptp l s = Raise ValueError.
Proof.
  intros Hl. unfold np_ptp.
  by erewrite bind_ok by (apply read_at, Hl).
Qed.

Lemma np_mean_axis0_run s ext l rows :
  s !! l = Some (Mat rows) ->
  np_mean_axis0 l (s ++ ext)
  = Ok ((length s + length ext)%nat, s ++ (ext ++ [Vec (mean_rows rows)])).
Proof.
  intros Hl. unfold np_mean_axis0.
  erewrite bind_ok by (apply read_rows_at, lookup_old, Hl).
  apply alloc_ext.
Qed.

Lemma np_mean_axis0_int_run s ext l rows :
  s !! l = Some (IMat rows) ->
  np_mean_axis0 l (s ++ ext)
  = Ok ((length s + length ext)%nat,
        s ++ (ext ++ [Vec (mean_rows (map (vmap of_int64) rows))])).
Proof.
  intros Hl. unfold np_mean_axis0.
  erewrite bind_ok by (apply read_rows_int_at, lookup_old, Hl).
  apply alloc_ext.
Qed.

Lemma np_subtract_run s ext l k rows mu :
  s !! l = Some (Mat rows) -> ext !! k = Some (Vec mu) ->
  np_subtract l (length s + k) (s ++ ext)
  = Ok ((length s + length ext)%nat, s ++ (ext ++ [Mat (subtract_rows rows mu)])).
Proof.
  intros Hl Hk. unfold np_subtract.
  erewrite bind_ok by (apply read_at, lookup_old, Hl).
  erewrite bind_ok by (apply read_at; rewrite lookup_ext; apply Hk).
  erewrite bind_ok by (apply read_rows_at, lookup_old, Hl).
  erewrite bind_ok by (apply read_axes_at; rewrite lookup_ext; apply Hk).
  apply alloc_ext.
Qed.

Lemma np_subtract_int_run s ext l k rows mu :
  s !! l = Some (IMat rows) -> ext !! k = Some (Vec mu) ->
  np_subtract l (length s + k) (s ++ ext)
  = Ok ((length s + length ext)%nat,
        s ++ (ext ++ [Mat (subtract_rows (map (vmap of_int64) rows) mu)])).
Proof.
  intros Hl Hk. unfold np_subtract.
  erewrite bind_ok by (apply read_at, lookup_old, Hl).
  erewrite bind_ok by (apply read_at; rewrite lookup_ext; apply Hk).
  cbv beta iota.
  erewrite bind_ok by (apply read_rows_int_at, lookup_old, Hl).
  erewrite bind_ok by (apply read_axes_at; rewrite lookup_ext; apply Hk).
  apply alloc_ext.
Qed.

Lemma setitem_where_zero_run s ext k v x :
  ext !! k = Some (Vec x) ->
  setitem_where_zero (length s + k) v (s ++ ext)
  = Ok (tt, s ++ <[k := Vec (where_zero (lit v) x)]> ext).
Proof.
  intros Hk. unfold setitem_where_zero.
  erewrite bind_ok by (apply read_at; rewrite lookup_ext; apply Hk).
  unfold write. rewrite lookup_ext, Hk. by rewrite insert_app_r.
Qed.

Lemma setitem_where_zero_int_run s ext k v x :
  ext !! k = Some (IVec x) ->
  setitem_where_zero (length s + k) v (s ++ ext)
  = Ok (tt, s ++ <[k := IVec (int_where_zero (Qtrunc v) x)]> ext).
Proof.
  intros Hk. unfold setitem_where_zero.
  erewrite bind_ok by (apply read_at; rewrite lookup_ext; apply Hk).
  unfold write. rewrite lookup_ext, Hk. by rewrite insert_app_r.
Qed.

Lemma np_divide_run s ext j k x y :
  ext !! j = Some (Vec x) -> ext !! k = Some (Vec y) ->
  np_divide (length s + j) (length s + k) (s ++ ext)
  = Ok ((length s + length ext)%nat, s ++ (ext ++ [Vec (vmap2 div x y)])).
Proof.
  intros Hj Hk. unfold np_divide.
  erewrite bind_ok by (apply read_axes_at; rewrite lookup_ext; apply Hj).
  erewrite bind_ok by (apply read_axes_at; rewrite lookup_ext; apply Hk).
  apply alloc_ext.
Qed.

Lemma np_mean_run s ext k x :
  ext !! k = Some (Vec x) ->
  np_mean (length s + k) (s ++ ext) = Ok (mean3 x, s ++ ext).
Proof.
  intros Hk. unfold np_mean.
  by erewrite bind_ok by (apply read_axes_at; rewrite lookup_ext; apply Hk).
Qed.

(** [calculate_rom_metrics] on two non-empty trajectories: the values it
    returns and the store it leaves. *)
Lemma calculate_rom_metrics_run s lr lp r rs p ps :
  s !! lr = Some (Mat (r :: rs)) -> s !! lp = Some (Mat (p :: ps)) ->
  calculate_rom_metrics lr lp s
  = Ok ((mean3 (range_ratios r rs p ps), (length s + 2)%nat),
        s ++ rom_arrays r rs p ps).
Proof.
  intros Hr Hp. unfold calculate_rom_metrics.
  rewrite <- (app_nil_r s) at 1.
  erewrite bind_ok by (eapply np_ptp_run, Hr).
  erewrite bind_ok by (eapply np_ptp_run, Hp).
  cbn [length app].
  erewrite bind_ok by (apply (setitem_where_zero_run s _ 0); reflexivity).
  cbn [length app].
  erewrite bind_ok by (apply (np_divide_run s _ 1 0); reflexivity).
  erewrite bind_ok by (apply (np_mean_run s _ 2); reflexivity).
  reflexivity.
Qed.

Lemma lift_run {A : Type} (r : result A) s :
  lift r s = match r with Ok a => Ok (a, s) | Raise e => Raise e end.
Proof. reflexivity. Qed.

(** [calculate_mdtw_with_sensitivity] on two stored trajectories, of any
    length and for any aligner: it fails exactly when the aligner raises or
    returns an index outside the arrays, and otherwise returns the values of
    steps 3 to 5 and leaves four new arrays behind the caller's store. *)
Lemma calculate_mdtw_run np_exp dtw_path s lt lq template query sensitivity radius :
  s !! lt = Some (Mat template) -> s !! lq = Some (Mat query) ->
  calculate_mdtw_with_sensitivity np_exp dtw_path lt lq sensitivity radius s
  = match dtw_path (centered template) (centered query) radius with
    | Ok aligned =>
        match fold_left (sq_err_step (centered template) (centered query))
                aligned.1 (Ok (V3 (lit 0) (lit 0) (lit 0))) with
        | Ok sq_err =>
            Ok (mdtw_value np_exp sensitivity aligned.1 aligned.2 sq_err,
                s ++ mdtw_arrays template query)
        | Raise e => Raise e
        end
    | Raise e => Raise e
    end.
Proof.
  intros Ht Hq. unfold calculate_mdtw_with_sensitivity.
  rewrite <- (app_nil_r s) at 1.
  erewrite bind_ok by (eapply np_mean_axis0_run, Ht).
  erewrite bind_ok by (apply (np_subtract_run s _ lt 0); [apply Ht | reflexivity]).
  erewrite bind_ok by (eapply np_mean_axis0_run, Hq).
  erewrite bind_ok by (apply (np_subtract_run s _ lq 2); [apply Hq | reflexivity]).
  cbn [length app].
  erewrite bind_ok
    by (apply read_mat_at; rewrite (lookup_ext s _ 1); reflexivity).
  erewrite bind_ok
    by (apply read_mat_at; rewrite (lookup_ext s _ 3); reflexivity).
  fold (centered template). fold (centered query).
  destruct (dtw_path (centered template) (centered query) radius) as [aligned|e].
  - erewrite bind_ok by reflexivity.
    destruct (fold_left _ _ _) as [sq_err|e].
    + erewrite bind_ok by reflexivity. reflexivity.
    + by erewrite bind_raise by reflexivity.
  - by erewrite bind_raise by reflexivity.
Qed.

End RunFacts.

(** ** Comparisons of real numbers *)

Section RealFacts.

Local Open Scope R_scope.

Lemma ltb_lt (x y : R) : Real.ltb x y = true <-> x < y.
Proof. unfold Real.ltb. destruct (Rlt_dec x y); split; (done || lra). Qed.

Lemma leb_le (x y : R) : Real.leb x y = true <-> x <= y.
Proof. unfold Real.leb. destruct (Rle_dec x y); split; (done || lra). Qed.

Lemma ltb_nlt (x y : R) : Real.ltb x y = false <-> y <= x.
Proof. unfold Real.ltb. destruct (Rlt_dec x y); split; (done || lra). Qed.

Lemma leb_nle (x y : R) : Real.leb x y = false <-> y < x.
Proof. unfold Real.leb. destruct (Rle_dec x y); split; (done || lra). Qed.

Lemma eqb_eq (x y : R) : Real.eqb x y = true <-> x = y.
Proof. unfold Real.eqb. destruct (Req_dec_T x y); split; (done || lra). Qed.

Lemma eqb_neq (x y : R) : Real.eqb x y = false <-> x <> y.
Proof. unfold Real.eqb. destruct (Req_dec_T x y); split; (done || lra). Qed.

End RealFacts.


(** ** Comparisons of binary64 numbers *)

Section FloatFacts.

Lemma SFcompare_swap (a b : spec_float) :
  SFcompare b a = option_map CompOpp (SFcompare a b).
Proof.
  destruct a as [sa|sa| |sa ma ea], b as [sb|sb| |sb mb eb]; cbn;
    try destruct sa; try destruct sb; cbn; try reflexivity.
  all: change (PosDef.Pos.compare_cont Eq mb ma) with (Pos.compare mb ma).
  all: change (PosDef.Pos.compare_cont Eq ma mb) with (Pos.compare ma mb).
  all: rewrite (Z.compare_antisym ea eb), (Pos.compare_antisym ma mb).
  all: destruct (ea ?= eb)%Z; cbn; try reflexivity.
  all: destruct (ma ?= mb)%positive; reflexivity.
Qed.

Lemma SFcompare_refl (a : spec_float) :
  a <> S754_nan -> SFcompare a a = Some Eq.
Proof.
  destruct a as [sa|sa| |sa ma ea]; cbn; try destruct sa; try done.
  all: change (PosDef.Pos.compare_cont Eq ma ma) with (Pos.compare ma ma).
  all: by rewrite Z.compare_refl, Pos.compare_refl.
Qed.

Lemma SFcompare_nan_r (a : spec_float) : SFcompare a S754_nan = None.
Proof. by destruct a. Qed.

Lemma SFcompare_defined (a b : spec_float) :
  a <> S754_nan -> b <> S754_nan -> exists c, SFcompare a b = Some c.
Proof.
  destruct a as [sa|sa| |sa ma ea], b as [sb|sb| |sb mb eb]; cbn;
    intros Ha Hb; try done; eauto.
Qed.

Lemma is_nan_spec (x : float) : F64.is_nan x = true <-> Prim2SF x = S754_nan.
Proof.
  unfold F64.is_nan. rewrite FloatAxioms.eqb_spec. unfold SFeqb. split.
  - intros Hx. destruct (Prim2SF x) as [s|s| |s m e] eqn:E; try done;
      rewrite SFcompare_refl in Hx by done; done.
  - by intros ->.
Qed.

Lemma not_nan_spec (x : float) : F64.is_nan x = false <-> Prim2SF x <> S754_nan.
Proof.
  rewrite <- is_nan_spec. destruct (F64.is_nan x); split; done.
Qed.

(** Every comparison with a NaN is false. *)
Lemma nan_ltb_l (x y : float) : F64.is_nan x = true -> PrimFloat.ltb x y = false.
Proof. intros Hx%is_nan_spec. rewrite FloatAxioms.ltb_spec. unfold SFltb. by rewrite Hx. Qed.

Lemma nan_ltb_r (x y : float) : F64.is_nan y = true -> PrimFloat.ltb x y = false.
Proof.
  intros Hy%is_nan_spec. rewrite FloatAxioms.ltb_spec. unfold SFltb.
  by rewrite Hy, SFcompare_nan_r.
Qed.

Lemma nan_leb_l (x y : float) : F64.is_nan x = true -> PrimFloat.leb x y = false.
Proof. intros Hx%is_nan_spec. rewrite FloatAxioms.leb_spec. unfold SFleb. by rewrite Hx. Qed.

Lemma nan_leb_r (x y : float) : F64.is_nan y = true -> PrimFloat.leb x y = false.
Proof.
  intros Hy%is_nan_spec. rewrite FloatAxioms.leb_spec. unfold SFleb.
  by rewrite Hy, SFcompare_nan_r.
Qed.

(** Two numbers that are not NaN are comparable. *)
Lemma not_ltb_leb (x y : float) :
  F64.is_nan x = false -> F64.is_nan y = false ->
  PrimFloat.ltb x y = false -> PrimFloat.leb y x = true.
Proof.
  intros Hx%not_nan_spec Hy%not_nan_spec.
  rewrite FloatAxioms.ltb_spec, FloatAxioms.leb_spec. unfold SFltb, SFleb.
  rewrite (SFcompare_swap (Prim2SF x) (Prim2SF y)).
  destruct (SFcompare_defined _ _ Hx Hy) as [c ->].
  by destruct c.
Qed.

End FloatFacts.

(** ** Whole numbers as floats *)

Section IntToFloat.

Lemma shr_1_nonneg (mrs : shr_record) :
  (0 <= shr_m mrs)%Z -> (0 <= shr_m (shr_1 mrs))%Z.
Proof. destruct mrs as [[|[p|p|]|[p|p|]] r s]; cbn; lia. Qed.

Lemma iter_shr_1_nonneg (p : positive) (mrs : shr_record) :
  (0 <= shr_m mrs)%Z -> (0 <= shr_m (SpecFloat.iter_pos shr_1 p mrs))%Z.
Proof.
  revert mrs. induction p as [p IH|p IH|]; intros mrs Hm; cbn [SpecFloat.iter_pos].
  - by apply IH, IH, shr_1_nonneg.
  - by apply IH, IH.
  - by apply shr_1_nonneg.
Qed.

Lemma shr_fexp_nonneg (m e : Z) (l : location) :
  (0 <= m)%Z -> (0 <= shr_m (shr_fexp prec emax m e l).1)%Z.
Proof.
  intros Hm. unfold shr_fexp, shr.
  assert (H0 : (0 <= shr_m (shr_record_of_loc m l))%Z)
    by (destruct l as [|[]]; exact Hm).
  destruct (_ - e)%Z; cbn [fst]; [done | by apply iter_shr_1_nonneg | done].
Qed.

Lemma round_nearest_even_nonneg (m : Z) (l : location) :
  (0 <= m)%Z -> (0 <= round_nearest_even m l)%Z.
Proof.
  intros Hm. destruct l as [|[]]; cbn; [done | | done | lia].
  destruct (Z.even m); lia.
Qed.

Lemma binary_round_aux_not_nan (sx : bool) (mx ex : Z) (lx : location) :
  (0 <= mx)%Z -> binary_round_aux prec emax sx mx ex lx <> S754_nan.
Proof.
  intros Hm. unfold binary_round_aux.
  pose proof (shr_fexp_nonneg mx ex lx Hm) as H1.
  destruct (shr_fexp prec emax mx ex lx) as [mrs' e']. cbn [fst] in H1.
  pose proof (shr_fexp_nonneg _ e' loc_Exact
                (round_nearest_even_nonneg _ (loc_of_shr_record mrs') H1)) as H2.
  destruct (shr_fexp prec emax _ e' loc_Exact) as [mrs'' e'']. cbn [fst] in H2.
  destruct (shr_m mrs'') as [|m|m]; [done | | lia].
  by destruct (e'' <=? emax - prec)%Z.
Qed.

Lemma binary_normalize_not_nan (m e : Z) (szero : bool) :
  binary_normalize prec emax m e szero <> S754_nan.
Proof.
  unfold binary_normalize, binary_round.
  destruct m as [|m|m]; [done | |];
    destruct (shl_align _ _ _) as [mz ez]; by apply binary_round_aux_not_nan.
Qed.

Lemma of_uint63_not_nan (n : Uint63.int) : F64.is_nan (of_uint63 n) = false.
Proof.
  apply not_nan_spec. rewrite of_uint63_spec. apply binary_normalize_not_nan.
Qed.

Lemma opp_not_nan (x : float) :
  F64.is_nan x = false -> F64.is_nan (- x) = false.
Proof.
  rewrite !not_nan_spec, opp_spec. by destruct (Prim2SF x).
Qed.

Lemma div_one_not_nan (x : float) :
  F64.is_nan x = false -> F64.is_nan (x / 1) = false.
Proof.
  rewrite !not_nan_spec, div_spec. intros Hx.
  change (Prim2SF 1) with (S754_finite false 4503599627370496 (-52)).
  destruct (Prim2SF x) as [s|s| |s m e]; [done | done | done |].
  unfold SF64div, SFdiv.
  destruct (SFdiv_core_binary _ _ _ _ _ _) as [[mz ez] lz] eqn:E.
  apply binary_round_aux_not_nan.
  unfold SFdiv_core_binary in E.
  set (m' := match _ with Z0 => _ | Zpos _ => _ | Zneg _ => _ end) in E.
  assert (Hm' : (0 <= m')%Z).
  { subst m'. destruct (_ - _ - _)%Z; [lia | | lia].
    apply Z.shiftl_nonneg. lia. }
  pose proof (Z.div_pos m' 4503599627370496 Hm' ltac:(lia)) as Hq.
  unfold Z.div in Hq.
  destruct (Z.div_eucl m' 4503599627370496) as [q r].
  injection E as <- _ _. exact Hq.
Qed.

(** An [int64] converts to a number, never to a NaN. *)
Lemma of_int64_not_nan (z : Z) : F64.is_nan (of_int64 z) = false.
Proof.
  unfold of_int64. destruct (z =? - 2 ^ 63)%Z; [reflexivity |].
  unfold of_int. cbn [lit float_number]. unfold F64.of_Q.
  cbn [Qnum Qden inject_Z].
  change (F64.of_Z 1) with 1%float.
  apply div_one_not_nan. unfold F64.of_Z.
  destruct z as [|p|p]; [reflexivity | apply of_uint63_not_nan |].
  apply opp_not_nan, of_uint63_not_nan.
Qed.



End IntToFloat.

(** ** The ROM grade *)

Ltac real_literals :=
  cbn [lit add sub mul div opp sqrt rint ltb leb eqb real_number of_nat of_int];
  repeat match goal with
    | |- context [Q2R ?q] =>
        let n := eval vm_compute in (Qnum q) in
        let d := eval vm_compute in (Qden q) in
        change (Q2R q) with (IZR n * / IZR (Zpos d))%R
    end.

Ltac real_cases :=
  repeat match goal with
    | |- context [Real.ltb ?a ?b] =>
        let E := fresh "E" in
        destruct (Real.ltb a b) eqn:E; [apply ltb_lt in E | apply ltb_nlt in E]
    | |- context [Real.leb ?a ?b] =>
        let E := fresh "E" in
        destruct (Real.leb a b) eqn:E; [apply leb_le in E | apply leb_nle in E]
    end.

Section RomGrade.

Local Open Scope R_scope.

Lemma get_rom_grade_real_total (ratio : R) :
  exists g : Z, get_rom_grade ratio = Some g /\ In g [0; 7; 8; 9; 10]%Z.
Proof.
  unfold get_rom_grade. real_literals. real_cases; cbn;
    try (eexists; split; [reflexivity | cbn; tauto]); lra.
Qed.

Lemma get_rom_grade_real_table (ratio : R) :
  (ratio < 50 / 100 \/ 150 / 100 < ratio -> get_rom_grade ratio = Some 0%Z) /\
  (95 / 100 <= ratio <= 105 / 100 -> get_rom_grade ratio = Some 10%Z) /\
  (90 / 100 <= ratio < 95 / 100 -> get_rom_grade ratio = Some 9%Z) /\
  (70 / 100 <= ratio < 90 / 100 -> get_rom_grade ratio = Some 8%Z) /\
  (50 / 100 <= ratio < 70 / 100 -> get_rom_grade ratio = Some 7%Z) /\
  (105 / 100 < ratio <= 110 / 100 -> get_rom_grade ratio = Some 9%Z) /\
  (110 / 100 < ratio <= 130 / 100 -> get_rom_grade ratio = Some 8%Z) /\
  (130 / 100 < ratio <= 150 / 100 -> get_rom_grade ratio = Some 7%Z).
Proof.
  unfold get_rom_grade. real_literals.
  repeat split; intros Hr; real_cases; cbn; try reflexivity; lra.
Qed.

End RomGrade.

Lemma get_rom_grade_float_total (ratio : float) :
  F64.is_nan ratio = false ->
  exists g : Z, get_rom_grade ratio = Some g /\ In g [0; 7; 8; 9; 10]%Z.
Proof.
  intros Hr. unfold get_rom_grade. cbn [lit ltb leb float_number].
  destruct (PrimFloat.ltb ratio (F64.of_Q 0.50) || PrimFloat.ltb (F64.of_Q 1.50) ratio);
    [eexists; split; [reflexivity | cbn; tauto] |].
  destruct (PrimFloat.leb (F64.of_Q 0.95) ratio && PrimFloat.leb ratio (F64.of_Q 1.05)) eqn:Emid;
    [eexists; split; [reflexivity | cbn; tauto] |].
  destruct (PrimFloat.ltb ratio (F64.of_Q 0.95)) eqn:Elo.
  { destruct (PrimFloat.leb (F64.of_Q 0.90) ratio);
      [| destruct (PrimFloat.leb (F64.of_Q 0.70) ratio)];
      eexists; (split; [reflexivity | cbn; tauto]). }
  destruct (PrimFloat.ltb (F64.of_Q 1.05) ratio) eqn:Ehi.
  { destruct (PrimFloat.leb ratio (F64.of_Q 1.10));
      [| destruct (PrimFloat.leb ratio (F64.of_Q 1.30))];
      eexists; (split; [reflexivity | cbn; tauto]). }
  apply not_ltb_leb in Elo; [| done | reflexivity].
  apply not_ltb_leb in Ehi; [| reflexivity | done].
  rewrite Elo, Ehi in Emid. discriminate.
Qed.

(** ** The shape grade *)

Section ShapeGrade.

Local Open Scope R_scope.

Lemma Int_part_between (x : R) (z : Z) : IZR z <= x < IZR z + 1 -> Int_part x = z.
Proof. intros Hx. symmetry. apply Int_part_spec. lra. Qed.

Lemma Int_part_nonpos (x : R) : x < 1 -> (Int_part x <= 0)%Z.
Proof.
  intros Hx. destruct (base_Int_part x) as [Hlo _].
  assert (Hlt : IZR (Int_part x) < IZR 1) by lra.
  apply lt_IZR in Hlt. lia.
Qed.

(** The bands of [get_shape_grade] for a positive limit. *)
Lemma get_shape_grade_bands (rmse limit : R) :
  0 < limit ->
  (limit < rmse -> get_shape_grade rmse limit = 0%Z) /\
  (rmse <= limit / 5 -> get_shape_grade rmse limit = 10%Z) /\
  (limit / 5 < rmse <= 2 * (limit / 5) -> get_shape_grade rmse limit = 9%Z) /\
  (2 * (limit / 5) < rmse <= 3 * (limit / 5) -> get_shape_grade rmse limit = 8%Z) /\
  (3 * (limit / 5) < rmse <= 4 * (limit / 5) -> get_shape_grade rmse limit = 7%Z) /\
  (4 * (limit / 5) < rmse <= limit -> get_shape_grade rmse limit = 6%Z).
Proof.
  intros Hlimit. unfold get_shape_grade. real_literals.
  repeat split; intros Hr; real_cases; cbn; try reflexivity; lra.
Qed.

(** Where the code and the formula of the specification agree: everywhere
    but the four inner step boundaries. *)
Lemma get_shape_grade_by_floor (rmse limit : R) :
  0 < limit ->
  rmse <> limit / 5 -> rmse <> 2 * (limit / 5) ->
  rmse <> 3 * (limit / 5) -> rmse <> 4 * (limit / 5) ->
  get_shape_grade rmse limit = shape_grade_by_floor rmse limit.
Proof.
  intros Hlimit H1 H2 H3 H4.
  destruct (get_shape_grade_bands rmse limit Hlimit)
    as (B0 & B10 & B9 & B8 & B7 & B6).
  unfold shape_grade_by_floor.
  destruct (Rlt_dec limit rmse) as [Hgt|Hle]; [by apply B0 |].
  assert (Hq : rmse = rmse / (limit / 5) * (limit / 5)) by (field; lra).
  set (q := rmse / (limit / 5)) in *. clearbody q.
  set (step := limit / 5) in *.
  assert (Hstep : 0 < step) by (unfold step; lra).
  assert (Hlim : limit = 5 * step) by (unfold step; clear; lra).
  clearbody step. subst limit rmse.
  destruct (Rle_dec q 1) as [C1|C1].
  { rewrite B10 by nra.
    assert (Hq1 : q < 1) by (destruct C1 as [C1|C1]; [done | subst q; exfalso; apply H1; lra]).
    pose proof (Int_part_nonpos q Hq1); lia. }
  destruct (Rle_dec q 2) as [C2|C2].
  { rewrite B9 by nra.
    assert (q <> 2) by (intros ->; apply H2; lra).
    rewrite (Int_part_between q 1); [lia | lra]. }
  destruct (Rle_dec q 3) as [C3|C3].
  { rewrite B8 by nra.
    assert (q <> 3) by (intros ->; apply H3; lra).
    rewrite (Int_part_between q 2); [lia | lra]. }
  destruct (Rle_dec q 4) as [C4|C4].
  { rewrite B7 by nra.
    assert (q <> 4) by (intros ->; apply H4; lra).
    rewrite (Int_part_between q 3); [lia | lra]. }
  assert (q <= 5) by nra.
  rewrite B6 by nra.
  destruct (base_Int_part q) as [F1 F2].
  assert (G1 : IZR 3 < IZR (Int_part q)) by lra.
  assert (G2 : IZR (Int_part q) < IZR 6) by lra.
  apply lt_IZR in G1, G2. lia.
Qed.

(** C2 (as amended).  For every positive limit, over the reals: an RMSE equal
    to the limit is graded 6 and an RMSE equal to a fifth of it 10; above the
    limit the grade is 0; up to the limit the grade is the formula
    [10 - floor(rmse / step)] clamped to [6, 10] except on the four inner
    step boundaries [k * step], [k = 1..4], where it is [11 - k]. *)
Theorem get_shape_grade_steps (limit : R) :
  0 < limit ->
  get_shape_grade limit limit = 6%Z /\
  get_shape_grade (limit / 5) limit = 10%Z /\
  (forall rmse, limit < rmse -> get_shape_grade rmse limit = 0%Z) /\
  (forall rmse, rmse <= limit ->
     rmse <> limit / 5 -> rmse <> 2 * (limit / 5) ->
     rmse <> 3 * (limit / 5) -> rmse <> 4 * (limit / 5) ->
     get_shape_grade rmse limit
     = Z.max 6 (Z.min 10 (10 - Int_part (rmse / (limit / 5))))) /\
  get_shape_grade (2 * (limit / 5)) limit = 9%Z /\
  get_shape_grade (3 * (limit / 5)) limit = 8%Z /\
  get_shape_grade (4 * (limit / 5)) limit = 7%Z.
Proof.
  intros Hlimit. repeat split.
  - apply get_shape_grade_bands; lra.
  - apply get_shape_grade_bands; lra.
  - intros rmse Hr. by apply get_shape_grade_bands.
  - intros rmse Hr H1 H2 H3 H4.
    rewrite get_shape_grade_by_floor by assumption.
    unfold shape_grade_by_floor.
    destruct (Rlt_dec limit rmse); [lra | reflexivity].
  - apply get_shape_grade_bands; lra.
  - apply get_shape_grade_bands; lra.
  - apply get_shape_grade_bands; lra.
Qed.

Lemma get_shape_grade_steps_witness :
  get_shape_grade (1 / 10) (1 / 10) = 6%Z /\
  get_shape_grade (1 / 10 / 5) (1 / 10) = 10%Z.
Proof.
  assert (Hlimit : 0 < 1 / 10) by lra.
  split; apply (get_shape_grade_steps (1 / 10) Hlimit).
Defined.

End ShapeGrade.

(** C2 (counterexample).  With the limit of the worked scenario, an RMSE
    exactly equal to the limit is graded 6 by the code, not 0; and at a fifth
    of the limit the formula of the specification gives 9 where the code
    gives 10. *)
Lemma get_shape_grade_at_limit_counterexample :
  get_shape_grade 0.10%float 0.10%float = 6%Z /\
  get_shape_grade 0.10%float 0.10%float <> 0%Z /\
  get_shape_grade (0.10 / 5)%float 0.10%float = 10%Z.
Proof. repeat split. vm_compute. discriminate. Qed.


(** ** The ROM grade, as the specification states it *)

(** C5.  [get_rom_grade] is total on the reals, with values in
    {0, 7, 8, 9, 10} and the table of section 4.5; it is total on every
    binary64 number that is not a NaN; 0.95 and 1.05 are graded 10, 0.4999
    and 1.5001 are graded 0, as real and as binary64 numbers. *)
Theorem get_rom_grade_total :
  (forall ratio : R,
     (exists g : Z, get_rom_grade ratio = Some g /\ In g [0; 7; 8; 9; 10]%Z) /\
     (ratio < 50 / 100 \/ 150 / 100 < ratio -> get_rom_grade ratio = Some 0%Z) /\
     (95 / 100 <= ratio <= 105 / 100 -> get_rom_grade ratio = Some 10%Z) /\
     (90 / 100 <= ratio < 95 / 100 -> get_rom_grade ratio = Some 9%Z) /\
     (70 / 100 <= ratio < 90 / 100 -> get_rom_grade ratio = Some 8%Z) /\
     (50 / 100 <= ratio < 70 / 100 -> get_rom_grade ratio = Some 7%Z) /\
     (105 / 100 < ratio <= 110 / 100 -> get_rom_grade ratio = Some 9%Z) /\
     (110 / 100 < ratio <= 130 / 100 -> get_rom_grade ratio = Some 8%Z) /\
     (130 / 100 < ratio <= 150 / 100 -> get_rom_grade ratio = Some 7%Z))%R /\
  (forall ratio : float,
     F64.is_nan ratio = false ->
     exists g : Z, get_rom_grade ratio = Some g /\ In g [0; 7; 8; 9; 10]%Z) /\
  (get_rom_grade (95 / 100) = Some 10%Z /\
   get_rom_grade (105 / 100) = Some 10%Z /\
   get_rom_grade (4999 / 10000) = Some 0%Z /\
   get_rom_grade (15001 / 10000) = Some 0%Z)%R /\
  (get_rom_grade 0.95 = Some 10%Z /\
   get_rom_grade 1.05 = Some 10%Z /\
   get_rom_grade 0.4999 = Some 0%Z /\
   get_rom_grade 1.5001 = Some 0%Z)%float.
Proof.
  split; [| split; [| split]].
  - intros ratio. split; [apply get_rom_grade_real_total |].
    apply get_rom_grade_real_table.
  - apply get_rom_grade_float_total.
  - repeat split.
    + apply get_rom_grade_real_table; lra.
    + apply get_rom_grade_real_table; lra.
    + apply get_rom_grade_real_table; lra.
    + apply get_rom_grade_real_table; lra.
  - repeat split.
Qed.

(** ** The mean of the grades and the ROM status *)

Section Status.

Context {T : Type} `{Number T}.

Lemma grade_sum_raise (grades : list (option Z)) (e : exn) :
  fold_left (grade_sum (T := T)) grades (Raise e) = Raise e.
Proof. induction grades as [|g grades IH]; [done | apply IH]. Qed.

Lemma grade_sum_none (grades : list (option Z)) (acc : result T) :
  In None grades ->
  fold_left grade_sum grades acc = Raise TypeError
  \/ exists e, acc = Raise e /\ fold_left grade_sum grades acc = Raise e.
Proof.
  revert acc. induction grades as [|g grades IH]; intros acc Hin; [done |].
  destruct Hin as [->|Hin].
  - destruct acc as [s|e]; cbn.
    + left. apply grade_sum_raise.
    + right. exists e. split; [done | apply grade_sum_raise].
  - cbn. destruct (IH (grade_sum acc g) Hin) as [IH'|(e & He & IH')].
    + by left.
    + destruct acc as [s|e']; [destruct g as [z|]; cbn in He |].
      * discriminate.
      * injection He as <-. left. apply grade_sum_raise.
      * right. exists e'. split; [done | apply grade_sum_raise].
Qed.

(** A [None] among the grades makes [np.mean] raise: no number comes out. *)
Lemma np_mean_grades_none (grades : list (option Z)) :
  In None grades -> np_mean_grades (T := T) grades = Raise TypeError.
Proof.
  intros Hin. unfold np_mean_grades.
  destruct (grade_sum_none grades (Ok (lit 0)) Hin) as [->|(e & He & _)]; done.
Qed.

(** The order of the tests of the status line. *)
Lemma rom_status_of_order (avg_rom_grade rom_ratio : T) :
  rom_status_of avg_rom_grade rom_ratio
  = if ltb avg_rom_grade (lit 1) then CRITICAL_FAILURE
    else if leb (lit 9) avg_rom_grade then EXCELLENT
    else if ltb rom_ratio (lit 0.90) then RESTRICTED
    else if ltb (lit 1.10) rom_ratio then EXCESSIVE
    else MILD_DEVIATION.
Proof. reflexivity. Qed.

End Status.

(** C6.  The status is decided by the mean grade first: below 1 it is
    CRITICAL_FAILURE and from 9 on EXCELLENT, whatever the ratio; only for a
    mean grade in between does the ratio decide, RESTRICTED below 0.90,
    EXCESSIVE above 1.10, MILD_DEVIATION otherwise.  The grades [10, 8, 0]
    have mean 6.0, for which no ratio gives CRITICAL_FAILURE. *)
Theorem rom_status_grade_first :
  (forall avg ratio : R,
     (avg < 1 -> rom_status_of avg ratio = CRITICAL_FAILURE) /\
     (9 <= avg -> rom_status_of avg ratio = EXCELLENT) /\
     (1 <= avg < 9 -> ratio < 90 / 100 ->
      rom_status_of avg ratio = RESTRICTED) /\
     (1 <= avg < 9 -> 110 / 100 < ratio ->
      rom_status_of avg ratio = EXCESSIVE) /\
     (1 <= avg < 9 -> 90 / 100 <= ratio <= 110 / 100 ->
      rom_status_of avg ratio = MILD_DEVIATION))%R /\
  (forall avg ratio : float,
     (PrimFloat.ltb avg 1 = true ->
      rom_status_of avg ratio = CRITICAL_FAILURE) /\
     (PrimFloat.ltb avg 1 = false -> PrimFloat.leb 9 avg = true ->
      rom_status_of avg ratio = EXCELLENT)) /\
  np_mean_grades [Some 10; Some 8; Some 0]%Z = Ok 6%float /\
  np_mean_grades [Some 10; Some 8; Some 0]%Z = Ok 6%R /\
  (forall ratio : float, rom_status_of 6%float ratio <> CRITICAL_FAILURE) /\
  (forall ratio : R, rom_status_of 6%R ratio <> CRITICAL_FAILURE).
Proof.
  split; [| split; [| split; [| split; [| split]]]].
  - intros avg ratio. unfold rom_status_of. real_literals.
    repeat split; intros; real_cases; try reflexivity; lra.
  - intros avg ratio. rewrite rom_status_of_order. cbn [ltb leb lit float_number].
    change (F64.of_Q 1) with 1%float. change (F64.of_Q 9) with 9%float.
    split; [by intros -> | by intros -> ->].
  - reflexivity.
  - unfold np_mean_grades. cbn [fold_left grade_sum length].
    real_literals. f_equal. lra.
  - intros ratio. rewrite rom_status_of_order. cbn [ltb leb lit float_number].
    change (PrimFloat.ltb 6 (F64.of_Q 1)) with false.
    change (PrimFloat.leb (F64.of_Q 9) 6) with false.
    destruct (PrimFloat.ltb ratio _); [done |].
    destruct (PrimFloat.ltb _ ratio); done.
  - intros ratio. unfold rom_status_of. real_literals.
    real_cases; try discriminate; lra.
Qed.

(** ** A NaN ratio *)

(** C10.  For a NaN ratio every test of [get_rom_grade] is false and the
    function returns no grade; the mean of a list of grades with such a hole
    raises, so no number comes out of it.  A patient axis whose values are
    all infinite gives such a ratio. *)
Theorem get_rom_grade_nan :
  (forall ratio : float, F64.is_nan ratio = true -> get_rom_grade ratio = None) /\
  get_rom_grade nan = None /\
  (forall grades : list (option Z),
     In None grades -> np_mean_grades (T := float) grades = Raise TypeError) /\
  (let ref_data := [V3 0 0 0; V3 1 1 1]%float in
   let pat_data := [V3 infinity 0 0; V3 infinity 1 1]%float in
   rom_metrics ref_data pat_data = Ok (nan, V3 nan 1 1)%float /\
   forall np_exp : float -> float,
     analyse np_exp ref_data pat_data 3%float 0.10%float = Raise TypeError).
Proof.
  split; [| split; [| split]].
  - intros ratio Hnan. unfold get_rom_grade. cbn [ltb leb lit float_number].
    rewrite !(nan_ltb_l ratio), !(nan_ltb_r _ ratio) by done.
    rewrite !(nan_leb_r _ ratio) by done.
    reflexivity.
  - reflexivity.
  - apply np_mean_grades_none.
  - cbv zeta. split; [reflexivity |].
    intros np_exp. vm_compute. reflexivity.
Qed.

(** ** Rounding and the score, over the reals *)

Section Score.

Local Open Scope R_scope.

(** [rint] returns an integer at distance at most a half. *)
Lemma rint_spec (x : R) :
  exists z : Z, Real.rint x = IZR z /\ x - 1 / 2 <= IZR z <= x + 1 / 2.
Proof.
  unfold Real.rint. destruct (base_Int_part x) as [Hlo Hhi].
  destruct (Rlt_dec (x - IZR (Int_part x)) (1 / 2)) as [Hd|Hd].
  { exists (Int_part x). split; [reflexivity | lra]. }
  destruct (Rlt_dec (1 / 2) (x - IZR (Int_part x))) as [Hu|Hu].
  { exists (Int_part x + 1)%Z. split; [reflexivity |]. rewrite plus_IZR. lra. }
  destruct (Z.even (Int_part x)).
  - exists (Int_part x). split; [reflexivity | lra].
  - exists (Int_part x + 1)%Z. split; [reflexivity |]. rewrite plus_IZR. lra.
Qed.

Lemma rint_mono (x y : R) : x <= y -> Real.rint x <= Real.rint y.
Proof.
  intros [Hlt| ->]; [| lra].
  destruct (rint_spec x) as (zx & -> & Hx), (rint_spec y) as (zy & -> & Hy).
  apply IZR_le. apply Z.nlt_ge. intros Hz.
  assert (Hz' : (zy + 1 <= zx)%Z) by lia.
  apply IZR_le in Hz'. rewrite plus_IZR in Hz'. lra.
Qed.

Lemma rint_IZR (z : Z) : Real.rint (IZR z) = IZR z.
Proof.
  unfold Real.rint.
  rewrite (Int_part_between (IZR z) z) by lra.
  destruct (Rlt_dec _ _) as [_|Hd]; [reflexivity | lra].
Qed.

Lemma np_round2_mono (x y : R) : x <= y -> np_round2 x <= np_round2 y.
Proof.
  intros Hxy. unfold np_round2. real_literals.
  assert (Hr : Real.rint (x * (100 * / 1)) <= Real.rint (y * (100 * / 1)))
    by (apply rint_mono; lra).
  lra.
Qed.

(** The score before rounding falls strictly as the error grows. *)
Lemma raw_score_decreasing (sensitivity r1 r2 : R) :
  0 < sensitivity -> r1 < r2 ->
  100 * exp (- sensitivity * r2) < 100 * exp (- sensitivity * r1).
Proof.
  intros Hs Hr.
  assert (He : exp (- sensitivity * r2) < exp (- sensitivity * r1))
    by (apply exp_increasing; nra).
  lra.
Qed.

(** Rounding a raw score close enough to 100 gives 100. *)
Lemma np_round2_near_100 (x : R) : 99997 / 1000 <= x <= 100 -> np_round2 x = 100.
Proof.
  intros [Hlo Hhi]. unfold np_round2. real_literals.
  destruct Hhi as [Hhi| ->].
  - unfold Real.rint.
    rewrite (Int_part_between (x * (100 * / 1)) 9999) by lra.
    destruct (Rlt_dec _ _) as [Hd|_]; [lra |].
    destruct (Rlt_dec _ _) as [_|Hd]; [| lra].
    change (9999 + 1)%Z with 10000%Z. lra.
  - replace (100 * (100 * / 1)) with (IZR 10000) by lra.
    rewrite rint_IZR. lra.
Qed.

Lemma score_at_zero_error (sensitivity : R) :
  np_round2 (100 * exp (- sensitivity * 0)) = 100.
Proof.
  replace (- sensitivity * 0) with 0 by lra. rewrite exp_0.
  apply np_round2_near_100. lra.
Qed.

End Score.

(** ** Worked comparisons over the reals *)

Ltac real_decide :=
  repeat match goal with
    | |- context [Real.ltb ?a ?b] =>
        first [ rewrite (proj2 (ltb_lt a b)) by lra
              | rewrite (proj2 (ltb_nlt a b)) by lra ]
    | |- context [Real.leb ?a ?b] =>
        first [ rewrite (proj2 (leb_le a b)) by lra
              | rewrite (proj2 (leb_nle a b)) by lra ]
    | |- context [Real.eqb ?a ?b] =>
        first [ rewrite (proj2 (eqb_eq a b)) by lra
              | rewrite (proj2 (eqb_neq a b)) by lra ]
    end.

Ltac band_decide :=
  repeat match goal with
    | |- context [in_band ?n ?m ?r ?i ?j] =>
        let b := eval vm_compute in (in_band n m r i j) in
        change (in_band n m r i j) with b
    end.

Ltac dtw_eval :=
  cbn [dtw_grid dtw_row head tail mjoin option_join]; band_decide;
  real_literals; unfold sqdist, vmap2; cbn [c0 c1 c2]; real_literals;
  repeat progress (unfold best3; cbn [better fst snd ltb real_number];
                   real_decide).

Ltac centered_eval :=
  unfold centered, subtract_rows, mean_rows, vmap2, vmap;
  cbn [map fold_left length c0 c1 c2]; real_literals;
  repeat (f_equal; try lra).

Ltac banded_dtw_eval :=
  unfold banded_dtw; cbn [length]; dtw_eval;
  cbn [cell lookup list_lookup mbind option_bind mjoin option_join
       backtrack Nat.add];
  dtw_eval;
  repeat (f_equal; try lra).

Ltac sq_err_eval :=
  cbn [fold_left sq_err_step lookup list_lookup fst snd];
  unfold vmap2, vmap; cbn [c0 c1 c2]; real_literals.

Ltac sqrt_is c :=
  match goal with
  | |- context [R_sqrt.sqrt ?x] => rewrite (sqrt_lem_1 x c) by lra
  end.

Section RealRuns.

Local Open Scope R_scope.

(** [mdtw] in terms of the aligner's answer. *)
Lemma mdtw_unfold {T : Type} `{Number T} (np_exp : T -> T)
    (template query : list (vec3 T)) (sensitivity : T) (radius : Z) :
  mdtw np_exp template query sensitivity radius
  = match banded_dtw (centered template) (centered query) radius with
    | Ok aligned =>
        match fold_left (sq_err_step (centered template) (centered query))
                aligned.1 (Ok (V3 (lit 0) (lit 0) (lit 0))) with
        | Ok sq_err => Ok (mdtw_value np_exp sensitivity aligned.1 aligned.2 sq_err)
        | Raise e => Raise e
        end
    | Raise e => Raise e
    end.
Proof.
  unfold mdtw, inputs.
  rewrite (calculate_mdtw_run _ _ _ 0 1 template query) by reflexivity.
  destruct (banded_dtw _ _ _) as [aligned|e]; [| reflexivity].
  destruct (fold_left _ _ _); reflexivity.
Qed.

Lemma centered_stroke : centered stroke = [V3 (-1 / 2) 0 0; V3 (1 / 2) 0 0].
Proof. unfold stroke. centered_eval. Qed.

Lemma centered_stroke_off :
  centered stroke_off = [V3 (-50001 / 100000) 0 0; V3 (50001 / 100000) 0 0].
Proof. unfold stroke_off. centered_eval. Qed.

Lemma centered_still : centered still = [V3 0 0 0].
Proof. unfold still. centered_eval. Qed.

Lemma dtw_stroke_stroke_off :
  banded_dtw (centered stroke) (centered stroke_off) 10
  = Ok ([(0, 0); (1, 1)]%nat, R_sqrt.sqrt (2 / 10000000000)).
Proof. rewrite centered_stroke, centered_stroke_off. banded_dtw_eval. Qed.

Lemma dtw_stroke_stroke :
  banded_dtw (centered stroke) (centered stroke) 10
  = Ok ([(0, 0); (1, 1)]%nat, R_sqrt.sqrt 0).
Proof. rewrite centered_stroke. banded_dtw_eval. Qed.


Lemma dtw_still_still :
  banded_dtw (centered still) (centered still) 10
  = Ok ([(0, 0)]%nat, R_sqrt.sqrt 0).
Proof. rewrite centered_still. banded_dtw_eval. Qed.

(** A raw score within three thousandths of 100 is shown as 100.00. *)
Lemma score_small_error (sensitivity r : R) :
  0 <= sensitivity * r <= 3 / 100000 ->
  np_round2 (100 * exp (- sensitivity * r)) = 100.
Proof.
  intros Hr. apply np_round2_near_100.
  pose proof (exp_ineq1_le (- sensitivity * r)) as Hlo.
  assert (Hhi : exp (- sensitivity * r) <= 1).
  { rewrite <- exp_0. destruct (Req_dec (sensitivity * r) 0) as [H0|H0].
    - replace (- sensitivity * r) with 0 by lra. lra.
    - apply Rlt_le, exp_increasing. lra. }
  lra.
Qed.

Lemma mdtw_stroke_stroke_off :
  mdtw exp stroke stroke_off 3 10
  = Ok (100, 1 / 100000, V3 (1 / 100000) 0 0).
Proof.
  rewrite mdtw_unfold, dtw_stroke_stroke_off.
  rewrite centered_stroke, centered_stroke_off. sq_err_eval.
  unfold mdtw_value, vmap. cbn [fst snd length c0 c1 c2]. real_literals.
  rewrite <- sqrt_div_alt by lra.
  repeat sqrt_is (1 / 100000). repeat sqrt_is 0.
  replace (100 * / 1) with 100 by lra.
  rewrite score_small_error by lra. reflexivity.
Qed.

Lemma mdtw_stroke_stroke (sensitivity : R) :
  mdtw exp stroke stroke sensitivity 10 = Ok (100, 0, V3 0 0 0).
Proof.
  rewrite mdtw_unfold, dtw_stroke_stroke.
  rewrite centered_stroke. sq_err_eval.
  unfold mdtw_value, vmap. cbn [fst snd length c0 c1 c2]. real_literals.
  repeat sqrt_is 0.
  replace (0 / R_sqrt.sqrt (2 * / 1)) with 0 by (unfold Rdiv; lra).
  replace (100 * / 1) with 100 by lra.
  rewrite score_at_zero_error. reflexivity.
Qed.


Lemma mdtw_still_still (sensitivity : R) :
  mdtw exp still still sensitivity 10 = Ok (100, 0, V3 0 0 0).
Proof.
  rewrite mdtw_unfold, dtw_still_still.
  rewrite centered_still. sq_err_eval.
  unfold mdtw_value, vmap. cbn [fst snd length c0 c1 c2]. real_literals.
  repeat sqrt_is 0.
  replace (0 / R_sqrt.sqrt (1 * / 1)) with 0 by (unfold Rdiv; lra).
  replace (100 * / 1) with 100 by lra.
  rewrite score_at_zero_error. reflexivity.
Qed.

(** Two recordings of one point each, whatever the points. *)
Lemma in_band_origin (n : nat) (radius : Z) : in_band n n radius 0 0 = true.
Proof. unfold in_band. apply Z.leb_le. lia. Qed.

Lemma mdtw_one_point (p q : vec3 R) (sensitivity : R) (radius : Z) :
  mdtw exp [p] [q] sensitivity radius = Ok (100, 0, V3 0 0 0).
Proof.
  destruct p as [px py pz], q as [qx qy qz].
  assert (Hc : forall a b c : R, centered [V3 a b c] = [V3 0 0 0])
    by (intros a b c; centered_eval).
  rewrite mdtw_unfold, !Hc.
  unfold banded_dtw. cbn [length dtw_grid dtw_row head tail mjoin option_join].
  rewrite in_band_origin.
  cbn [cell lookup list_lookup mbind option_bind mjoin option_join
       backtrack Nat.add fst snd].
  sq_err_eval. unfold sqdist, vmap2. cbn [c0 c1 c2]. real_literals.
  unfold mdtw_value, vmap. cbn [fst snd length c0 c1 c2]. real_literals.
  repeat sqrt_is 0.
  replace (0 / R_sqrt.sqrt (1 * / 1)) with 0 by (unfold Rdiv; lra).
  replace (100 * / 1) with 100 by lra.
  rewrite score_at_zero_error. reflexivity.
Qed.

End RealRuns.

(** ** The caller's arrays *)

Section Frame.

Context {T : Type} `{Number T}.
Implicit Types (s : store T) (l : loc).

Lemma length_centered (rows : list (vec3 T)) : length (centered rows) = length rows.
Proof. unfold centered, subtract_rows. apply length_map. Qed.

(** The loop over the path succeeds when every index is inside its array. *)
Lemma sq_err_in_range (tc qc : list (vec3 T)) (path : list (nat * nat)) (acc : vec3 T) :
  Forall (fun ij => (ij.1 < length tc)%nat /\ (ij.2 < length qc)%nat) path ->
  exists sq_err, fold_left (sq_err_step tc qc) path (Ok acc) = Ok sq_err.
Proof.
  intros Hpath. revert acc.
  induction Hpath as [|[i j] path [Hi Hj] _ IH]; intros acc; cbn; [eauto |].
  destruct (lookup_lt_is_Some_2 tc i Hi) as [t ->].
  destruct (lookup_lt_is_Some_2 qc j Hj) as [q ->].
  apply IH.
Qed.

(** The function returns whenever the aligner does, with indices inside the
    arrays: nothing else can make it fail. *)
Lemma calculate_mdtw_returns np_exp dtw_path s lt lq template query
    sensitivity radius aligned :
  s !! lt = Some (Mat template) -> s !! lq = Some (Mat query) ->
  dtw_path (centered template) (centered query) radius = Ok aligned ->
  Forall (fun ij => (ij.1 < length template)%nat /\ (ij.2 < length query)%nat)
         aligned.1 ->
  exists sq_err,
    calculate_mdtw_with_sensitivity np_exp dtw_path lt lq sensitivity radius s
    = Ok (mdtw_value np_exp sensitivity aligned.1 aligned.2 sq_err,
          s ++ mdtw_arrays template query).
Proof.
  intros Ht Hq Hdtw Hpath.
  rewrite (calculate_mdtw_run _ _ _ _ _ template query) by done.
  rewrite Hdtw.
  rewrite <- (length_centered template), <- (length_centered query) in Hpath.
  destruct (sq_err_in_range _ _ _ (V3 (lit 0) (lit 0) (lit 0)) Hpath)
    as [sq_err ->].
  by exists sq_err.
Qed.

End Frame.




(** ** What the comparison returns *)

Section Returns.

Context {T : Type} `{Number T}.

(** The values returned on the caller's store [inputs template query]. *)
Lemma calculate_mdtw_value np_exp dtw_path template query sensitivity radius :
  value (calculate_mdtw_with_sensitivity np_exp dtw_path 0 1 sensitivity
           radius (inputs template query))
  = match dtw_path (centered template) (centered query) radius with
    | Ok aligned =>
        match fold_left (sq_err_step (centered template) (centered query))
                aligned.1 (Ok (V3 (lit 0) (lit 0) (lit 0))) with
        | Ok sq_err =>
            Ok (mdtw_value np_exp sensitivity aligned.1 aligned.2 sq_err)
        | Raise e => Raise e
        end
    | Raise e => Raise e
    end.
Proof.
  unfold inputs.
  rewrite (calculate_mdtw_run _ _ _ 0 1 template query) by reflexivity.
  destruct (dtw_path _ _ _) as [aligned|e]; [| reflexivity].
  destruct (fold_left _ _ _); reflexivity.
Qed.

(** The score is a function of the sensitivity and the global RMSE alone;
    the sensitivity plays no part in whether the call returns. *)
Lemma calculate_mdtw_sensitivity np_exp dtw_path template query
    sensitivity sensitivity' radius sc g ax :
  value (calculate_mdtw_with_sensitivity np_exp dtw_path 0 1 sensitivity
           radius (inputs template query)) = Ok (sc, g, ax) ->
  value (calculate_mdtw_with_sensitivity np_exp dtw_path 0 1 sensitivity'
           radius (inputs template query))
  = Ok (np_round2 (mul (lit 100) (np_exp (mul (opp sensitivity') g))), g, ax).
Proof.
  rewrite !calculate_mdtw_value.
  destruct (dtw_path _ _ _) as [aligned|e]; [| done].
  destruct (fold_left _ _ _) as [sq_err|e]; [| done].
  unfold mdtw_value. by intros [= _ <- <-].
Qed.

End Returns.

(** C3 (counterexample).  Two recordings of a single point each are compared
    without complaint: RMSE 0, score 100. *)
Lemma one_point_comparison_counterexample :
  (length still < 2)%nat /\
  mdtw exp still still 3%R 10 = Ok (100, 0, V3 0 0 0)%R.
Proof. split; [cbn; lia | apply mdtw_still_still]. Qed.

(** C3 (as amended).  [calculate_mdtw_with_sensitivity] has no test on the
    lengths and raises nothing of its own: for trajectories of any length, a
    single point included, it returns as soon as the aligner answers with
    indices inside the two arrays; the global RMSE is the aligner's distance
    over the square root of the path length and the score is computed from
    it.  Two recordings of one point each, whatever the points, the
    sensitivity and the radius, give RMSE 0 and score 100. *)
Theorem mdtw_has_no_length_check :
  (forall (T : Type) (N : Number T) (np_exp : T -> T)
          (dtw_path : list (vec3 T) -> list (vec3 T) -> Z
                      -> result (list (nat * nat) * T))
          (template query : list (vec3 T)) (sensitivity : T) (radius : Z)
          (aligned : list (nat * nat) * T),
     dtw_path (centered template) (centered query) radius = Ok aligned ->
     Forall (fun ij => (ij.1 < length template)%nat /\ (ij.2 < length query)%nat)
            aligned.1 ->
     let global_rmse := div aligned.2 (sqrt (of_nat (length aligned.1))) in
     exists axis_rmse,
       value (calculate_mdtw_with_sensitivity np_exp dtw_path 0 1 sensitivity
                radius (inputs template query))
       = Ok (np_round2 (mul (lit 100)
                            (np_exp (mul (opp sensitivity) global_rmse))),
             global_rmse, axis_rmse)) /\
  (forall (p q : vec3 R) (sensitivity : R) (radius : Z),
     mdtw exp [p] [q] sensitivity radius = Ok (100, 0, V3 0 0 0)%R).
Proof.
  split.
  - intros T N np_exp dtw_path template query sensitivity radius aligned
           Hdtw Hpath global_rmse.
    destruct (calculate_mdtw_returns np_exp dtw_path (inputs template query)
                0 1 template query sensitivity radius aligned eq_refl eq_refl
                Hdtw Hpath) as [sq_err Hrun].
    rewrite Hrun. cbn [value]. unfold mdtw_value. eauto.
  - apply mdtw_one_point.
Qed.

Lemma mdtw_has_no_length_check_witness :
  exists r,
    value (calculate_mdtw_with_sensitivity exp banded_dtw 0 1 3%R 10
             (inputs still still)) = Ok r.
Proof.
  assert (Hpath : Forall (fun ij : nat * nat =>
                            (ij.1 < length still)%nat /\ (ij.2 < length still)%nat)
                         ([(0, 0)%nat], R_sqrt.sqrt 0).1).
  { repeat constructor. }
  destruct (proj1 mdtw_has_no_length_check R real_number exp banded_dtw still
              still 3%R 10%Z ([(0, 0)%nat], R_sqrt.sqrt 0) dtw_still_still Hpath)
    as [axis_rmse Hrun].
  eexists. exact Hrun.
Defined.

(** ** The score as a function of the error *)

Section ScoreOrder.

Local Open Scope R_scope.

(** C4 (counterexample).  With sensitivity 3 a perfect repetition of the
    stroke and one that is off by an RMSE of ten micrometres both score
    100.00: the larger error does not score strictly less. *)
Lemma score_plateau_counterexample :
  mdtw exp stroke stroke 3 10 = Ok (100, 0, V3 0 0 0) /\
  mdtw exp stroke stroke_off 3 10 = Ok (100, 1 / 100000, V3 (1 / 100000) 0 0) /\
  0 < 1 / 100000 /\ ~ 100 < 100.
Proof.
  split; [apply mdtw_stroke_stroke |].
  split; [apply mdtw_stroke_stroke_off |]. lra.
Qed.

(** C4 (as amended).  For a fixed positive sensitivity the score is
    [100 * exp(-sensitivity * global_rmse)] rounded to two decimals; before
    rounding it falls strictly as the global RMSE grows, and the rounded
    score never rises. *)
Theorem score_never_rises
    (dtw_path : list (vec3 R) -> list (vec3 R) -> Z -> result (list (nat * nat) * R))
    (template1 query1 template2 query2 : list (vec3 R))
    (sensitivity : R) (radius : Z) (sc1 g1 sc2 g2 : R) (ax1 ax2 : vec3 R) :
  0 < sensitivity ->
  value (calculate_mdtw_with_sensitivity exp dtw_path 0 1 sensitivity radius
           (inputs template1 query1)) = Ok (sc1, g1, ax1) ->
  value (calculate_mdtw_with_sensitivity exp dtw_path 0 1 sensitivity radius
           (inputs template2 query2)) = Ok (sc2, g2, ax2) ->
  g1 < g2 ->
  sc1 = np_round2 (100 * exp (- sensitivity * g1)) /\
  sc2 = np_round2 (100 * exp (- sensitivity * g2)) /\
  100 * exp (- sensitivity * g2) < 100 * exp (- sensitivity * g1) /\
  sc2 <= sc1.
Proof.
  intros Hs H1 H2 Hg.
  pose proof (calculate_mdtw_sensitivity _ _ _ _ _ sensitivity _ _ _ _ H1) as E1.
  pose proof (calculate_mdtw_sensitivity _ _ _ _ _ sensitivity _ _ _ _ H2) as E2.
  rewrite H1 in E1. rewrite H2 in E2.
  assert (F : forall g, np_round2 (mul (lit 100) (exp (mul (opp sensitivity) g)))
                      = np_round2 (100 * exp (- sensitivity * g))).
  { intros g. real_literals. by replace (100 * / 1) with 100 by lra. }
  rewrite F in E1, E2.
  assert (E1' : sc1 = np_round2 (100 * exp (- sensitivity * g1))) by congruence.
  assert (E2' : sc2 = np_round2 (100 * exp (- sensitivity * g2))) by congruence.
  clear E1 E2. rename E1' into E1, E2' into E2.
  pose proof (raw_score_decreasing sensitivity g1 g2 Hs Hg) as Hraw.
  repeat split; try assumption.
  rewrite E1, E2. apply np_round2_mono. lra.
Qed.

Lemma score_never_rises_witness :
  np_round2 (100 * exp (- (3) * (1 / 100000)))
  <= np_round2 (100 * exp (- (3) * 0)).
Proof.
  assert (Hs : 0 < 3) by lra.
  assert (Hg : 0 < 1 / 100000) by lra.
  destruct (score_never_rises banded_dtw stroke stroke stroke stroke_off 3 10
              100 0 100 (1 / 100000) (V3 0 0 0) (V3 (1 / 100000) 0 0)
              Hs (mdtw_stroke_stroke 3) mdtw_stroke_stroke_off Hg)
    as (E1 & E2 & _ & Hle).
  rewrite <- E1, <- E2. exact Hle.
Defined.

End ScoreOrder.

(** ** Configuration values *)

Section Configuration.

Local Open Scope R_scope.



End Configuration.


(** ** A reference without range on an axis *)

Section ZeroRange.

Context {T : Type} `{Number T}.

(** The values [calculate_rom_metrics] returns on non-empty trajectories. *)
Lemma rom_metrics_value (x : vec3 T) xs (y : vec3 T) ys :
  rom_metrics (x :: xs) (y :: ys)
  = Ok (mean3 (range_ratios x xs y ys), range_ratios x xs y ys).
Proof.
  unfold rom_metrics, inputs.
  erewrite bind_ok
    by (apply (calculate_rom_metrics_run _ 0 1 x xs y ys); reflexivity).
  reflexivity.
Qed.

End ZeroRange.


(** The values [calculate_rom_metrics] returns on a non-empty patient array
    of either element type, for a [float64] and for an [int64] reference.  On
    the [int64] ranges the masked assignment stores the literal cut to an
    integer, which is 0: the ranges stay as they are. *)
Section ZeroRangeArrays.

Context {T : Type} `{Number T}.



End ZeroRangeArrays.


(** ** The worked scenario *)

Section Analysis.

Context {T : Type} `{Number T}.


End Analysis.

Section WorkedScenario.

Local Open Scope R_scope.






End WorkedScenario.



(** * Further properties of the engine *)

(** ** Sums, maxima and minima over the rows *)

Section Columns.

Local Open Scope R_scope.

(** A reduction over the rows is the reduction of each column. *)
Lemma fold_columns (f : R -> R -> R) (rs : list (vec3 R)) (r : vec3 R) :
  fold_left (vmap2 f) rs r
  = V3 (fold_left f (map c0 rs) (c0 r)) (fold_left f (map c1 rs) (c1 r))
       (fold_left f (map c2 rs) (c2 r)).
Proof.
  revert r. induction rs as [|x rs IH]; intros r; [by destruct r |].
  cbn [fold_left map]. rewrite IH. reflexivity.
Qed.

Lemma np_maximum_real (a b : R) : np_maximum a b = Rmax a b.
Proof.
  unfold np_maximum, isnan, Rmax. cbn [leb eqb real_number].
  rewrite (proj2 (eqb_eq a a)) by reflexivity. cbn [negb]. rewrite orb_false_r.
  destruct (Rle_dec a b) as [Hab|Hab].
  - destruct (Real.leb b a) eqn:E; [apply leb_le in E; lra | reflexivity].
  - rewrite (proj2 (leb_le b a)) by lra. reflexivity.
Qed.

Lemma np_minimum_real (a b : R) : np_minimum a b = Rmin a b.
Proof.
  unfold np_minimum, isnan, Rmin. cbn [leb eqb real_number].
  rewrite (proj2 (eqb_eq a a)) by reflexivity. cbn [negb]. rewrite orb_false_r.
  destruct (Rle_dec a b) as [Hab|Hab].
  - rewrite (proj2 (leb_le a b)) by lra. reflexivity.
  - rewrite (proj2 (leb_nle a b)) by lra. reflexivity.
Qed.

Lemma fold_maximum_real (l : list R) (a : R) :
  fold_left np_maximum l a = fold_left Rmax l a.
Proof.
  revert a. induction l as [|x l IH]; intros a; [done |].
  cbn [fold_left]. by rewrite np_maximum_real, IH.
Qed.

Lemma fold_minimum_real (l : list R) (a : R) :
  fold_left np_minimum l a = fold_left Rmin l a.
Proof.
  revert a. induction l as [|x l IH]; intros a; [done |].
  cbn [fold_left]. by rewrite np_minimum_real, IH.
Qed.

Lemma Rmax_shift (p q c : R) : Rmax (p + c) (q + c) = Rmax p q + c.
Proof. unfold Rmax. destruct (Rle_dec _ _), (Rle_dec _ _); lra. Qed.

Lemma Rmin_shift (p q c : R) : Rmin (p + c) (q + c) = Rmin p q + c.
Proof. unfold Rmin. destruct (Rle_dec _ _), (Rle_dec _ _); lra. Qed.

Lemma fold_max_shift (c : R) (l : list R) (a : R) :
  fold_left Rmax (map (fun x => x + c) l) (a + c) = fold_left Rmax l a + c.
Proof.
  revert a. induction l as [|x l IH]; intros a; [done |].
  cbn [fold_left map]. by rewrite Rmax_shift, IH.
Qed.

Lemma fold_min_shift (c : R) (l : list R) (a : R) :
  fold_left Rmin (map (fun x => x + c) l) (a + c) = fold_left Rmin l a + c.
Proof.
  revert a. induction l as [|x l IH]; intros a; [done |].
  cbn [fold_left map]. by rewrite Rmin_shift, IH.
Qed.

Lemma fold_sum_shift (c : R) (l : list R) (a : R) :
  fold_left Rplus (map (fun x => x + c) l) (a + c)
  = fold_left Rplus l a + INR (S (length l)) * c.
Proof.
  revert a. induction l as [|x l IH]; intros a.
  - cbn. lra.
  - cbn [fold_left map length].
    replace (a + c + (x + c)) with (a + x + c + c) by lra.
    assert (G : forall (l' : list R) b d, fold_left Rplus l' (b + d)
                                       = fold_left Rplus l' b + d).
    { clear. induction l' as [|y l' IH']; intros b d; [done |].
      cbn [fold_left]. replace (b + d + y) with (b + y + d) by lra. apply IH'. }
    rewrite G, IH. rewrite (S_INR (S (length l))). lra.
Qed.

Lemma fold_max_ge (l : list R) (a : R) : a <= fold_left Rmax l a.
Proof.
  revert a. induction l as [|x l IH]; intros a; [cbn; lra |].
  cbn [fold_left]. pose proof (IH (Rmax a x)). pose proof (Rmax_l a x). lra.
Qed.

Lemma fold_min_le (l : list R) (a : R) : fold_left Rmin l a <= a.
Proof.
  revert a. induction l as [|x l IH]; intros a; [cbn; lra |].
  cbn [fold_left]. pose proof (IH (Rmin a x)). pose proof (Rmin_l a x). lra.
Qed.

(** The range of a column of real numbers. *)
Lemma peak_to_peak_real (r : vec3 R) (rs : list (vec3 R)) :
  peak_to_peak r rs
  = V3 (fold_left Rmax (map c0 rs) (c0 r) - fold_left Rmin (map c0 rs) (c0 r))
       (fold_left Rmax (map c1 rs) (c1 r) - fold_left Rmin (map c1 rs) (c1 r))
       (fold_left Rmax (map c2 rs) (c2 r) - fold_left Rmin (map c2 rs) (c2 r)).
Proof.
  unfold peak_to_peak. rewrite !fold_columns. unfold vmap2. cbn [c0 c1 c2].
  by rewrite !fold_maximum_real, !fold_minimum_real.
Qed.

Lemma peak_to_peak_nonneg (r : vec3 R) (rs : list (vec3 R)) :
  0 <= c0 (peak_to_peak r rs) /\ 0 <= c1 (peak_to_peak r rs)
  /\ 0 <= c2 (peak_to_peak r rs).
Proof.
  rewrite peak_to_peak_real. cbn [c0 c1 c2].
  pose proof (fold_max_ge (map c0 rs) (c0 r)).
  pose proof (fold_min_le (map c0 rs) (c0 r)).
  pose proof (fold_max_ge (map c1 rs) (c1 r)).
  pose proof (fold_min_le (map c1 rs) (c1 r)).
  pose proof (fold_max_ge (map c2 rs) (c2 r)).
  pose proof (fold_min_le (map c2 rs) (c2 r)).
  lra.
Qed.

Lemma columns_translate (c : vec3 R) (rs : list (vec3 R)) :
  map c0 (translate c rs) = map (fun x => x + c0 c) (map c0 rs) /\
  map c1 (translate c rs) = map (fun x => x + c1 c) (map c1 rs) /\
  map c2 (translate c rs) = map (fun x => x + c2 c) (map c2 rs).
Proof. unfold translate. rewrite !map_map. done. Qed.

Lemma peak_to_peak_translate (c r : vec3 R) (rs : list (vec3 R)) :
  peak_to_peak (vmap2 Rplus r c) (translate c rs) = peak_to_peak r rs.
Proof.
  rewrite !peak_to_peak_real.
  destruct (columns_translate c rs) as (-> & -> & ->).
  unfold vmap2. cbn [c0 c1 c2].
  rewrite !fold_max_shift, !fold_min_shift.
  f_equal; lra.
Qed.

End Columns.

(** ** Range of motion *)

Section RomFacts.

Local Open Scope R_scope.

(** The divisor of a ratio is positive: the range, or 1e-6 in its place. *)
Lemma guarded_range_positive (r : vec3 R) (rs : list (vec3 R)) :
  0 < c0 (guarded_range r rs) /\ 0 < c1 (guarded_range r rs)
  /\ 0 < c2 (guarded_range r rs).
Proof.
  destruct (peak_to_peak_nonneg r rs) as (H0 & H1 & H2).
  unfold guarded_range, where_zero, vmap. cbn [c0 c1 c2]. real_literals.
  repeat split.
  - destruct (Real.eqb _ _) eqn:E; [lra |]. apply eqb_neq in E. lra.
  - destruct (Real.eqb _ _) eqn:E; [lra |]. apply eqb_neq in E. lra.
  - destruct (Real.eqb _ _) eqn:E; [lra |]. apply eqb_neq in E. lra.
Qed.

Lemma guarded_range_nonzero (r : vec3 R) (rs : list (vec3 R)) :
  c0 (peak_to_peak r rs) <> 0 -> c1 (peak_to_peak r rs) <> 0 ->
  c2 (peak_to_peak r rs) <> 0 ->
  guarded_range r rs = peak_to_peak r rs.
Proof.
  intros H0 H1 H2. unfold guarded_range, where_zero, vmap. real_literals.
  rewrite !(proj2 (eqb_neq _ (0 * / 1))) by lra.
  by destruct (peak_to_peak r rs).
Qed.

End RomFacts.

(** X1.  The ROM metrics do not depend on where the two recordings are
    placed: moving the reference and the patient's trajectory, each as a
    whole, changes neither the ratios nor their mean, nor whether the call
    raises. *)
Theorem rom_metrics_translation (c d : vec3 R) (ref_data pat_data : list (vec3 R)) :
  rom_metrics (translate c ref_data) (translate d pat_data)
  = rom_metrics ref_data pat_data.
Proof.
  destruct ref_data as [|x xs]; [reflexivity |].
  destruct pat_data as [|y ys]; [reflexivity |].
  cbn [translate map]. rewrite !rom_metrics_value.
  unfold range_ratios, guarded_range.
  change (map (fun r => vmap2 add r c) xs) with (translate c xs).
  change (map (fun r => vmap2 add r d) ys) with (translate d ys).
  cbn [add real_number]. by rewrite !peak_to_peak_translate.
Qed.

(** X2.  A reference that moves along every axis, compared with itself, has
    ratio 1 on every axis, mean ratio 1 and grade 10 on every axis. *)
Theorem rom_metrics_identity (x : vec3 R) (xs : list (vec3 R)) :
  c0 (peak_to_peak x xs) <> 0%R -> c1 (peak_to_peak x xs) <> 0%R ->
  c2 (peak_to_peak x xs) <> 0%R ->
  rom_metrics (x :: xs) (x :: xs) = Ok (1, V3 1 1 1)%R /\
  map get_rom_grade (vlist (range_ratios x xs x xs))
  = [Some 10; Some 10; Some 10]%Z.
Proof.
  intros H0 H1 H2.
  assert (Hr : range_ratios x xs x xs = (V3 1 1 1)%R).
  { unfold range_ratios. rewrite guarded_range_nonzero by assumption.
    destruct (peak_to_peak x xs) as [a b c]. unfold vmap2.
    cbn [c0 c1 c2 div real_number] in *. f_equal; by field. }
  rewrite rom_metrics_value, Hr. split.
  - unfold mean3. cbn [c0 c1 c2]. real_literals. do 2 f_equal. lra.
  - cbn [vlist c0 c1 c2 map].
    by rewrite (proj1 (proj2 (get_rom_grade_real_table 1))) by lra.
Qed.

Lemma rom_metrics_identity_witness :
  rom_metrics [V3 0 0 0; V3 1 2 3]%R [V3 0 0 0; V3 1 2 3]%R
  = Ok (1, V3 1 1 1)%R.
Proof.
  assert (Hp : (peak_to_peak (V3 0 0 0) [V3 1 2 3] = V3 1 2 3)%R).
  { rewrite peak_to_peak_real. cbn [map fold_left c0 c1 c2].
    unfold Rmax, Rmin. repeat destruct (Rle_dec _ _); f_equal; lra. }
  apply (rom_metrics_identity (V3 0 0 0)%R [V3 1 2 3]%R);
    rewrite Hp; cbn [c0 c1 c2]; lra.
Defined.

(** X3.  On non-empty trajectories of real numbers the three ratios and
    their mean are never negative. *)
Theorem rom_ratios_nonnegative (x : vec3 R) xs (y : vec3 R) ys :
  exists avg ratios,
    rom_metrics (x :: xs) (y :: ys) = Ok (avg, ratios) /\
    (0 <= c0 ratios /\ 0 <= c1 ratios /\ 0 <= c2 ratios /\ 0 <= avg)%R.
Proof.
  eexists _, _. split; [apply rom_metrics_value |].
  destruct (peak_to_peak_nonneg y ys) as (P0 & P1 & P2).
  destruct (guarded_range_positive x xs) as (G0 & G1 & G2).
  unfold mean3, range_ratios, vmap2. cbn [c0 c1 c2]. real_literals.
  assert (D : forall a b : R, (0 <= a -> 0 < b -> 0 <= a / b)%R).
  { intros a b Ha Hb. apply Rmult_le_pos; [lra |].
    apply Rlt_le, Rinv_0_lt_compat, Hb. }
  pose proof (D _ _ P0 G0). pose proof (D _ _ P1 G1). pose proof (D _ _ P2 G2).
  repeat split; try assumption.
  apply D; lra.
Qed.

(** X4.  [calculate_rom_metrics] raises exactly when one of the two
    trajectories has no row, and then it is [ValueError]; for every number
    type. *)
Theorem rom_metrics_raises_on_empty :
  forall (T : Type) (N : Number T) (ref_data pat_data : list (vec3 T)),
    (rom_metrics ref_data pat_data = Raise ValueError
     <-> ref_data = [] \/ pat_data = []) /\
    (forall e, rom_metrics ref_data pat_data = Raise e -> e = ValueError).
Proof.
  intros T N ref_data pat_data.
  destruct ref_data as [|x xs]; [split; [split; [by left | reflexivity] |
                                         by intros e [= <-]] |].
  destruct pat_data as [|y ys]; [split; [split; [by right | reflexivity] |
                                         by intros e [= <-]] |].
  rewrite rom_metrics_value. split; [split |]; [done | by intros [|] | done].
Qed.

(** ** Centring *)

Section Centring.

Local Open Scope R_scope.

Lemma of_nat_real (n : nat) : of_nat n = INR n.
Proof.
  unfold of_nat. cbn [lit real_number]. unfold Q2R. cbn [Qnum Qden inject_Z].
  rewrite <- INR_IZR_INZ. lra.
Qed.

Lemma mean_rows_translate (c x : vec3 R) (xs : list (vec3 R)) :
  mean_rows (translate c (x :: xs)) = vmap2 Rplus (mean_rows (x :: xs)) c.
Proof.
  unfold mean_rows. rewrite !of_nat_real.
  replace (length (translate c (x :: xs))) with (S (length xs))
    by (unfold translate; by rewrite length_map).
  cbn [translate map length]. rewrite !fold_columns.
  change (map (fun r => vmap2 add r c) xs) with (translate c xs).
  destruct (columns_translate c xs) as (-> & -> & ->).
  unfold vmap2, vmap. cbn [c0 c1 c2 add div real_number].
  rewrite !fold_sum_shift. rewrite !length_map.
  assert (Hn : INR (S (length xs)) <> 0) by (apply not_0_INR; lia).
  f_equal; field; lra.
Qed.

(** Centring forgets where the recording is placed. *)
Lemma centered_translate (c : vec3 R) (rows : list (vec3 R)) :
  centered (translate c rows) = centered rows.
Proof.
  destruct rows as [|x xs]; [reflexivity |].
  unfold centered. rewrite mean_rows_translate.
  set (mu := mean_rows (x :: xs)). unfold subtract_rows, translate.
  rewrite map_map. apply map_ext. intros [a b e].
  unfold vmap2. cbn [c0 c1 c2 add sub real_number]. f_equal; lra.
Qed.

End Centring.

(** X5.  The comparison does not depend on where the two recordings are
    placed: moving the template and the query, each as a whole, changes
    neither the score nor the global and per-axis RMSE, whatever the aligner
    and the exponential. *)
Theorem mdtw_translation (np_exp : R -> R)
    (dtw_path : list (vec3 R) -> list (vec3 R) -> Z -> result (list (nat * nat) * R))
    (c d : vec3 R) (template query : list (vec3 R)) (sensitivity : R) (radius : Z) :
  value (calculate_mdtw_with_sensitivity np_exp dtw_path 0 1 sensitivity radius
           (inputs (translate c template) (translate d query)))
  = value (calculate_mdtw_with_sensitivity np_exp dtw_path 0 1 sensitivity
             radius (inputs template query)).
Proof. rewrite !calculate_mdtw_value. by rewrite !centered_translate. Qed.

(** ** The score *)

Section ScoreRange.

Local Open Scope R_scope.

Lemma np_round2_error (x : R) : Rabs (np_round2 x - x) <= 1 / 200.
Proof.
  unfold np_round2. real_literals.
  destruct (rint_spec (x * (100 * / 1))) as (z & -> & Hz).
  apply Rabs_le. lra.
Qed.

Lemma np_round2_IZR (z : Z) : np_round2 (IZR z) = IZR z.
Proof.
  unfold np_round2. real_literals.
  replace (IZR z * (100 * / 1)) with (IZR (z * 100)) by (rewrite mult_IZR; lra).
  rewrite rint_IZR, mult_IZR. lra.
Qed.

End ScoreRange.

(** X6.  The score that is returned differs from [100 * exp(-sensitivity *
    global_rmse)] by at most 0.005; when sensitivity and global RMSE are not
    negative it lies between 0 and 100. *)
Theorem score_range
    (dtw_path : list (vec3 R) -> list (vec3 R) -> Z -> result (list (nat * nat) * R))
    (template query : list (vec3 R)) (sensitivity : R) (radius : Z)
    (sc g : R) (ax : vec3 R) :
  value (calculate_mdtw_with_sensitivity exp dtw_path 0 1 sensitivity radius
           (inputs template query)) = Ok (sc, g, ax) ->
  (Rabs (sc - 100 * exp (- sensitivity * g)) <= 1 / 200 /\
   (0 <= sensitivity -> 0 <= g -> 0 <= sc <= 100))%R.
Proof.
  intros Hrun.
  pose proof (calculate_mdtw_sensitivity _ _ _ _ _ sensitivity _ _ _ _ Hrun) as E.
  rewrite Hrun in E.
  assert (F : np_round2 (mul (lit 100) (exp (mul (opp sensitivity) g)))
              = np_round2 (100 * exp (- sensitivity * g))%R).
  { real_literals. by replace (100 * / 1)%R with 100%R by lra. }
  rewrite F in E.
  assert (E' : sc = np_round2 (100 * exp (- sensitivity * g))%R) by congruence.
  subst sc. split; [apply np_round2_error |].
  intros Hs Hg.
  pose proof (exp_pos (- sensitivity * g)) as Hpos.
  assert (Hle : (exp (- sensitivity * g) <= 1)%R).
  { rewrite <- exp_0. destruct (Req_dec (sensitivity * g) 0) as [H0|H0].
    - replace (- sensitivity * g)%R with 0%R by lra. lra.
    - apply Rlt_le, exp_increasing. nra. }
  split.
  - apply Rle_trans with (np_round2 (IZR 0));
      [rewrite np_round2_IZR; lra | apply np_round2_mono; lra].
  - apply Rle_trans with (np_round2 (IZR 100));
      [apply np_round2_mono; lra | rewrite np_round2_IZR; lra].
Qed.

Lemma score_range_witness :
  (Rabs (100 - 100 * exp (- (3) * (1 / 100000))) <= 1 / 200)%R.
Proof.
  exact (proj1 (score_range banded_dtw stroke stroke_off 3%R 10 100%R
                  (1 / 100000)%R (V3 (1 / 100000) 0 0)%R mdtw_stroke_stroke_off)).
Defined.

(** ** More on the shape grade *)

(** X7.  For every limit, the shape grade never rises when the RMSE grows. *)
Theorem get_shape_grade_monotone (limit rmse1 rmse2 : R) :
  (rmse1 <= rmse2)%R ->
  (get_shape_grade rmse2 limit <= get_shape_grade rmse1 limit)%Z.
Proof.
  intros Hr. unfold get_shape_grade. real_literals.
  real_cases; try lia; lra.
Qed.

Lemma get_shape_grade_monotone_witness :
  (get_shape_grade (3 / 100)%R (1 / 10)%R
   <= get_shape_grade (1 / 100)%R (1 / 10)%R)%Z.
Proof.
  assert (Hr : (1 / 100 <= 3 / 100)%R) by lra.
  exact (get_shape_grade_monotone (1 / 10) (1 / 100) (3 / 100) Hr).
Defined.

Section ShapeScale.

Local Open Scope R_scope.

Lemma leb_scale (k a b : R) : 0 < k -> Real.leb (k * a) (k * b) = Real.leb a b.
Proof.
  intros Hk. destruct (Real.leb a b) eqn:E.
  - apply leb_le in E. apply leb_le. nra.
  - apply leb_nle in E. apply leb_nle. nra.
Qed.

Lemma ltb_scale (k a b : R) : 0 < k -> Real.ltb (k * a) (k * b) = Real.ltb a b.
Proof.
  intros Hk. destruct (Real.ltb a b) eqn:E.
  - apply ltb_lt in E. apply ltb_lt. nra.
  - apply ltb_nlt in E. apply ltb_nlt. nra.
Qed.

End ShapeScale.

(** X8.  The shape grade does not depend on the unit of length: multiplying
    the RMSE and the limit by the same positive factor leaves it unchanged. *)
Theorem get_shape_grade_scale (k rmse limit : R) :
  (0 < k)%R ->
  get_shape_grade (k * rmse)%R (k * limit)%R = get_shape_grade rmse limit.
Proof.
  intros Hk. unfold get_shape_grade. real_literals.
  set (five := (50 * / 10)%R).
  replace (k * limit / five)%R with (k * (limit / five))%R
    by (unfold Rdiv; ring).
  replace (k * (limit / five) * (2 * / 1))%R
    with (k * (limit / five * (2 * / 1)))%R by ring.
  replace (k * (limit / five) * (3 * / 1))%R
    with (k * (limit / five * (3 * / 1)))%R by ring.
  replace (k * (limit / five) * (4 * / 1))%R
    with (k * (limit / five * (4 * / 1)))%R by ring.
  by rewrite ltb_scale, !leb_scale.
Qed.

Lemma get_shape_grade_scale_witness :
  get_shape_grade (100 * (3 / 100))%R (100 * (1 / 10))%R
  = get_shape_grade (3 / 100)%R (1 / 10)%R.
Proof.
  assert (Hk : (0 < 100)%R) by lra.
  exact (get_shape_grade_scale 100 (3 / 100) (1 / 10) Hk).
Defined.

Section FloatNaN.

Lemma nan_div_l (x y : float) : F64.is_nan x = true -> F64.is_nan (x / y) = true.
Proof.
  intros Hx%is_nan_spec. apply is_nan_spec.
  rewrite div_spec, Hx. reflexivity.
Qed.

Lemma nan_mul_l (x y : float) : F64.is_nan x = true -> F64.is_nan (x * y) = true.
Proof.
  intros Hx%is_nan_spec. apply is_nan_spec.
  rewrite mul_spec, Hx. reflexivity.
Qed.

End FloatNaN.

(** X9.  For every number type the shape grade is one of 0, 6, 7, 8, 9, 10,
    and it is 0 exactly when the test [rmse > limit] succeeds.  On binary64
    numbers a NaN as RMSE or as limit fails every test: the grade is 6. *)
Theorem get_shape_grade_values :
  (forall (T : Type) (N : Number T) (rmse limit : T),
     In (get_shape_grade rmse limit) [0; 6; 7; 8; 9; 10]%Z /\
     (get_shape_grade rmse limit = 0%Z <-> ltb limit rmse = true)) /\
  (forall rmse limit : float,
     F64.is_nan rmse = true \/ F64.is_nan limit = true ->
     get_shape_grade rmse limit = 6%Z).
Proof.
  split.
  - intros T N rmse limit. unfold get_shape_grade.
    destruct (ltb limit rmse); [cbn; intuition |].
    repeat match goal with
      | |- context [leb ?a ?b] => destruct (leb a b)
      end; cbn; intuition discriminate.
  - intros rmse limit Hnan. unfold get_shape_grade.
    cbn [ltb leb lit mul div float_number].
    destruct Hnan as [Hr|Hl].
    + rewrite (nan_ltb_r limit rmse), !(nan_leb_l rmse) by done. reflexivity.
    + pose proof (nan_div_l limit (F64.of_Q 5.0) Hl) as Hstep.
      rewrite (nan_ltb_l limit rmse) by done.
      rewrite (nan_leb_r rmse) by done.
      rewrite !(nan_leb_r rmse) by (by apply nan_mul_l).
      reflexivity.
Qed.

(** ** More on the ROM status *)

Section StatusFacts.

Local Open Scope R_scope.

Lemma mean_of_three_grades (g1 g2 g3 : Z) :
  np_mean_grades [Some g1; Some g2; Some g3]
  = Ok ((IZR g1 + IZR g2 + IZR g3) / 3).
Proof.
  unfold np_mean_grades. cbn [fold_left grade_sum length].
  unfold of_int. rewrite of_nat_real.
  cbn [lit add div real_number]. unfold Q2R. cbn [Qnum Qden inject_Z INR].
  f_equal. field.
Qed.

Lemma rom_status_critical (avg ratio : R) :
  rom_status_of avg ratio = CRITICAL_FAILURE <-> avg < 1.
Proof.
  unfold rom_status_of. real_literals. split.
  - real_cases; intros Hs; try discriminate; lra.
  - intros Havg. rewrite (proj2 (ltb_lt avg (1 * / 1))) by lra. reflexivity.
Qed.

Lemma rom_status_excellent (avg ratio : R) :
  rom_status_of avg ratio = EXCELLENT <-> 9 <= avg.
Proof.
  unfold rom_status_of. real_literals. split.
  - real_cases; intros Hs; try discriminate; lra.
  - intros Havg. rewrite (proj2 (ltb_nlt avg (1 * / 1))) by lra.
    rewrite (proj2 (leb_le (9 * / 1) avg)) by lra. reflexivity.
Qed.

End StatusFacts.

Ltac grade_cases H := destruct H as [<-|[<-|[<-|[<-|[<-|[]]]]]].

(** X10.  For three real ratios the mean grade exists and lies between 0 and
    10, and the status is CRITICAL_FAILURE exactly when all three axes are
    graded 0: one or two failed axes never give it. *)
Theorem critical_failure_needs_all_axes (r1 r2 r3 ratio : R) :
  exists avg,
    np_mean_grades (map get_rom_grade [r1; r2; r3]) = Ok avg /\
    (0 <= avg <= 10)%R /\
    (rom_status_of avg ratio = CRITICAL_FAILURE
     <-> get_rom_grade r1 = Some 0%Z /\ get_rom_grade r2 = Some 0%Z
         /\ get_rom_grade r3 = Some 0%Z).
Proof.
  destruct (get_rom_grade_real_total r1) as (g1 & E1 & I1).
  destruct (get_rom_grade_real_total r2) as (g2 & E2 & I2).
  destruct (get_rom_grade_real_total r3) as (g3 & E3 & I3).
  cbn [map]. rewrite E1, E2, E3, mean_of_three_grades.
  eexists. split; [reflexivity |]. rewrite rom_status_critical.
  grade_cases I1; grade_cases I2; grade_cases I3;
    (split; [lra |]);
    (split; [intros Havg; first [exfalso; lra | repeat split] |
             intros (A & B & C); try discriminate; lra]).
Qed.

(** X11.  For three real ratios the status is EXCELLENT exactly when the
    three grades add up to 27 or more, which no failed axis allows: every
    axis is then graded 7 or more. *)
Theorem excellent_needs_every_axis (r1 r2 r3 ratio : R) :
  exists g1 g2 g3 avg,
    map get_rom_grade [r1; r2; r3] = [Some g1; Some g2; Some g3] /\
    np_mean_grades [Some g1; Some g2; Some g3] = Ok avg /\
    (rom_status_of avg ratio = EXCELLENT <-> (27 <= g1 + g2 + g3)%Z) /\
    (rom_status_of avg ratio = EXCELLENT ->
     (7 <= g1)%Z /\ (7 <= g2)%Z /\ (7 <= g3)%Z).
Proof.
  destruct (get_rom_grade_real_total r1) as (g1 & E1 & I1).
  destruct (get_rom_grade_real_total r2) as (g2 & E2 & I2).
  destruct (get_rom_grade_real_total r3) as (g3 & E3 & I3).
  exists g1, g2, g3. cbn [map]. rewrite E1, E2, E3, mean_of_three_grades.
  eexists. split; [reflexivity |]. split; [reflexivity |].
  rewrite rom_status_excellent.
  grade_cases I1; grade_cases I2; grade_cases I3;
    (split; [split; intros Hs; first [lia | lra]
            | intros Hs; first [lia | exfalso; lra]]).
Qed.

(** ** The shape status of the report *)

Section ShapeStatusFacts.

Context {T : Type} `{Number T}.

(** The status is read off the grade, and the grade is 0 exactly when the
    first test of [get_shape_grade] succeeds. *)
Lemma shape_status_of_grade (rmse limit : T) (axes : vec3 T) :
  shape_status_of (get_shape_grade rmse limit) axes
  = if ltb limit rmse
    then shape_status_of 0 axes
    else GOOD_SHAPE_MATCH.
Proof.
  unfold get_shape_grade.
  destruct (ltb limit rmse); [reflexivity |].
  repeat match goal with
    | |- context [leb ?a ?b] => destruct (leb a b)
    end; reflexivity.
Qed.

Lemma shape_status_of_zero (axes : vec3 T) :
  exists main_issue, shape_status_of 0 axes = INCORRECT_SHAPE main_issue.
Proof. unfold shape_status_of. cbn [Z.eqb]. eauto. Qed.

End ShapeStatusFacts.

(** X12.  The report says GOOD SHAPE MATCH exactly when the test
    [rmse > limit] of the grade fails, whatever the per-axis errors are, and
    INCORRECT SHAPE otherwise; on real numbers, exactly when the global RMSE
    is at most the limit.  On binary64 numbers a NaN as RMSE or as limit
    fails the test: the report says GOOD SHAPE MATCH. *)
Theorem shape_status_follows_limit :
  (forall (T : Type) (N : Number T) (rmse limit : T) (axes : vec3 T),
     (shape_status_of (get_shape_grade rmse limit) axes = GOOD_SHAPE_MATCH
      <-> ltb limit rmse = false) /\
     (ltb limit rmse = true ->
      exists main_issue,
        shape_status_of (get_shape_grade rmse limit) axes
        = INCORRECT_SHAPE main_issue)) /\
  (forall (rmse limit : R) (axes : vec3 R),
     shape_status_of (get_shape_grade rmse limit) axes = GOOD_SHAPE_MATCH
     <-> (rmse <= limit)%R) /\
  (forall (rmse limit : float) (axes : vec3 float),
     F64.is_nan rmse = true \/ F64.is_nan limit = true ->
     shape_status_of (get_shape_grade rmse limit) axes = GOOD_SHAPE_MATCH).
Proof.
  split; [| split].
  - intros T N rmse limit axes. rewrite shape_status_of_grade.
    destruct (shape_status_of_zero axes) as [a Ha].
    destruct (ltb limit rmse).
    + rewrite Ha. split; [split; discriminate | eauto].
    + split; [done | discriminate].
  - intros rmse limit axes. rewrite shape_status_of_grade.
    destruct (shape_status_of_zero axes) as [a Ha]. rewrite Ha.
    cbn [ltb real_number].
    destruct (Real.ltb limit rmse) eqn:E.
    + apply ltb_lt in E. split; [discriminate | lra].
    + apply ltb_nlt in E. split; [lra | done].
  - intros rmse limit axes Hnan. rewrite shape_status_of_grade.
    cbn [ltb float_number].
    destruct Hnan as [Hr|Hl].
    + by rewrite (nan_ltb_r limit rmse).
    + by rewrite (nan_ltb_l limit rmse).
Qed.

Section MainIssue.

Local Open Scope R_scope.

Lemma py_max3_real (a b c : R) : py_max3 a b c = Rmax (Rmax a b) c.
Proof.
  unfold py_max3. cbn [ltb real_number].
  destruct (Real.ltb a b) eqn:E1;
    [apply ltb_lt in E1 | apply ltb_nlt in E1].
  - rewrite (Rmax_right a b) by lra.
    destruct (Real.ltb b c) eqn:E2;
      [apply ltb_lt in E2; rewrite Rmax_right by lra
      | apply ltb_nlt in E2; rewrite Rmax_left by lra]; reflexivity.
  - rewrite (Rmax_left a b) by lra.
    destruct (Real.ltb a c) eqn:E2;
      [apply ltb_lt in E2; rewrite Rmax_right by lra
      | apply ltb_nlt in E2; rewrite Rmax_left by lra]; reflexivity.
Qed.

End MainIssue.

Ltac axis_cases :=
  (split; [| split]);
  (split; [first [discriminate | intros _] | intros [? ?]]).

(** X13.  When the report says INCORRECT SHAPE, the axis it names as the main
    issue has the largest of the three per-axis errors, and among equal
    errors X is named before Y and Y before Z.  On binary64 numbers a NaN
    error on X names Z, whatever the other two errors are. *)
Theorem main_issue_is_largest_error :
  (forall (shape_grade : Z) (axes : vec3 R) (main_issue : shape_axis),
     shape_status_of shape_grade axes = INCORRECT_SHAPE main_issue ->
     shape_grade = 0%Z /\
     (main_issue = AxisX <-> (c1 axes <= c0 axes /\ c2 axes <= c0 axes)%R) /\
     (main_issue = AxisY <-> (c0 axes < c1 axes /\ c2 axes <= c1 axes)%R) /\
     (main_issue = AxisZ <-> (c0 axes < c2 axes /\ c1 axes < c2 axes)%R)) /\
  (forall rmse_x rmse_y rmse_z : float,
     F64.is_nan rmse_x = true ->
     shape_status_of 0 (V3 rmse_x rmse_y rmse_z) = INCORRECT_SHAPE AxisZ).
Proof.
  split.
  - intros shape_grade [rx ry rz] main_issue. unfold shape_status_of.
    cbn [c0 c1 c2].
    destruct (shape_grade =? 0)%Z eqn:Eg; [| discriminate].
    apply Z.eqb_eq in Eg. intros [= <-]. split; [exact Eg |].
    rewrite py_max3_real. cbn [eqb real_number].
    destruct (Real.eqb (Rmax (Rmax rx ry) rz) rx) eqn:Ex;
      [apply eqb_eq in Ex | apply eqb_neq in Ex].
    { revert Ex. unfold Rmax.
      repeat destruct (Rle_dec _ _); intros Ex; axis_cases;
        first [reflexivity | lra | split; lra | exfalso; lra]. }
    destruct (Real.eqb (Rmax (Rmax rx ry) rz) ry) eqn:Ey;
      [apply eqb_eq in Ey | apply eqb_neq in Ey].
    { revert Ex Ey. unfold Rmax.
      repeat destruct (Rle_dec _ _); intros Ex Ey; axis_cases;
        first [reflexivity | lra | split; lra | exfalso; lra
              | exfalso; apply Ex; lra]. }
    revert Ex Ey. unfold Rmax.
    repeat destruct (Rle_dec _ _); intros Ex Ey; axis_cases;
      first [reflexivity | lra | split; lra | exfalso; lra
            | exfalso; apply Ex; lra | exfalso; apply Ey; lra].
  - intros rmse_x rmse_y rmse_z Hnan. unfold shape_status_of, py_max3.
    cbn [c0 c1 c2 Z.eqb ltb eqb float_number].
    rewrite (nan_ltb_l rmse_x rmse_y) by done.
    rewrite (nan_ltb_l rmse_x rmse_z) by done.
    assert (Hx : PrimFloat.eqb rmse_x rmse_x = false).
    { unfold F64.is_nan in Hnan. by destruct (PrimFloat.eqb rmse_x rmse_x). }
    rewrite Hx.
    assert (Hy : PrimFloat.eqb rmse_x rmse_y = false).
    { rewrite FloatAxioms.eqb_spec. apply is_nan_spec in Hnan.
      rewrite Hnan. reflexivity. }
    rewrite Hy. reflexivity.
Qed.

Lemma main_issue_is_largest_error_witness :
  shape_status_of 0 (V3 1 3 3)%R = INCORRECT_SHAPE AxisY /\
  (AxisY = AxisY <-> (1 < 3 /\ 3 <= 3)%R).
Proof.
  assert (Hs : shape_status_of 0 (V3 1 3 3)%R = INCORRECT_SHAPE AxisY).
  { unfold shape_status_of. cbn [c0 c1 c2 Z.eqb]. rewrite py_max3_real.
    cbn [eqb real_number].
    replace (Rmax (Rmax 1 3) 3) with 3%R
      by (unfold Rmax; repeat destruct (Rle_dec _ _); lra).
    rewrite (proj2 (eqb_neq 3 1)) by lra.
    rewrite (proj2 (eqb_eq 3 3)) by lra. reflexivity. }
  split; [exact Hs |].
  exact (proj1 (proj2 (proj2
    (proj1 main_issue_is_largest_error 0%Z (V3 1 3 3)%R AxisY Hs)))).
Defined.

(** ** File names *)

Section Strings.

Lemma append_nil_l (s : string) : "" +:+ s = s.
Proof. reflexivity. Qed.

Lemma append_cons (c : ascii) (s t : string) :
  String c s +:+ t = String c (s +:+ t).
Proof. reflexivity. Qed.

Lemma prefix_spec (s1 s2 : string) :
  String.prefix s1 s2 = true <-> exists post, s2 = s1 +:+ post.
Proof.
  revert s2. induction s1 as [|a s1 IH]; intros [|b s2]; cbn [String.prefix].
  - split; [intros _; by exists "" | reflexivity].
  - split; [intros _; by exists (String b s2) | reflexivity].
  - split; [discriminate |].
    intros [post Hp]. rewrite append_cons in Hp. discriminate.
  - destruct (ascii_dec a b) as [->|Hne].
    + rewrite IH. split; intros [post Hp]; exists post;
        rewrite append_cons in *; congruence.
    + split; [discriminate |].
      intros [post Hp]. rewrite append_cons in Hp. congruence.
Qed.

Lemma contains_spec (needle hay : string) :
  contains needle hay = true
  <-> exists pre post, hay = pre +:+ needle +:+ post.
Proof.
  induction hay as [|c hay IH]; cbn [contains].
  - rewrite orb_false_r, prefix_spec. split.
    + intros [post Hp]. by exists "", post.
    + intros ([|c pre] & post & Hp); [by exists post | done].
  - rewrite orb_true_iff, prefix_spec, IH. split.
    + intros [[post Hp]|(pre & post & Hp)].
      * by exists "", post.
      * exists (String c pre), post. rewrite append_cons. by rewrite Hp.
    + intros ([|c' pre] & post & Hp).
      * left. by exists post.
      * right. exists pre, post. rewrite ?append_nil_l, ?append_cons in Hp. congruence.
Qed.

Lemma endswith_spec (suffix s : string) :
  endswith suffix s = true <-> exists pre, s = pre +:+ suffix.
Proof.
  induction s as [|c s IH]; cbn [endswith].
  - rewrite orb_false_r, String.eqb_eq. split.
    + intros <-. by exists "".
    + intros [[|c pre] Hp]; rewrite ?append_nil_l, ?append_cons in Hp; [done | done].
  - rewrite orb_true_iff, String.eqb_eq, IH. split.
    + intros [<-|[pre ->]]; [by exists "" | by exists (String c pre)].
    + intros [[|c' pre] Hp]; rewrite ?append_nil_l, ?append_cons in Hp.
      * by left.
      * right. exists pre. congruence.
Qed.

Lemma prefix_cons (a b : ascii) (s1 s2 : string) :
  String.prefix (String a s1) (String b s2)
  = Ascii.eqb a b && String.prefix s1 s2.
Proof.
  cbn [String.prefix]. destruct (ascii_dec a b) as [->|Hne].
  - by rewrite Ascii.eqb_refl.
  - by rewrite (proj2 (Ascii.eqb_neq a b)).
Qed.

Lemma prefix_nil (s : string) : String.prefix "" s = true.
Proof. by destruct s. Qed.

Lemma upper_ascii_paren_l (c : ascii) :
  Ascii.eqb "(" (upper_ascii c) = Ascii.eqb "(" c.
Proof. by destruct c as [[] [] [] [] [] [] [] []]. Qed.

Lemma upper_ascii_paren_r (c : ascii) :
  Ascii.eqb ")" (upper_ascii c) = Ascii.eqb ")" c.
Proof. by destruct c as [[] [] [] [] [] [] [] []]. Qed.

Lemma upper_ascii_L (c : ascii) :
  Ascii.eqb "L" (upper_ascii c) = Ascii.eqb "L" c || Ascii.eqb "l" c.
Proof. by destruct c as [[] [] [] [] [] [] [] []]. Qed.

Lemma prefix_upper (s : string) :
  String.prefix "(L)" (upper s)
  = String.prefix "(L)" s || String.prefix "(l)" s.
Proof.
  destruct s as [|a [|b [|c s]]]; cbn [upper];
    rewrite ?prefix_cons, ?upper_ascii_paren_l, ?upper_ascii_L,
      ?upper_ascii_paren_r, ?prefix_nil; cbn [String.prefix];
    rewrite ?andb_false_r; try reflexivity.
  destruct (Ascii.eqb "(" a), (Ascii.eqb "L" b), (Ascii.eqb "l" b),
    (Ascii.eqb ")" c); reflexivity.
Qed.

Lemma contains_upper (s : string) :
  contains "(L)" (upper s) = contains "(L)" s || contains "(l)" s.
Proof.
  induction s as [|c s IH]; [reflexivity |].
  change (upper (String c s)) with (String (upper_ascii c) (upper s)).
  cbn [contains].
  change (String (upper_ascii c) (upper s)) with (upper (String c s)).
  rewrite prefix_upper, IH.
  destruct (String.prefix "(L)" (String c s)),
    (String.prefix "(l)" (String c s)), (contains "(L)" s),
    (contains "(l)" s); reflexivity.
Qed.

End Strings.

(** X14.  [get_arm_side] answers "Left" exactly when the file name has
    "(L)" or "(l)" somewhere in it, and "Right" for every other name: a name
    that marks no side, or marks the side in another way, counts as the right
    arm. *)
Theorem get_arm_side_left (filename : string) :
  (get_arm_side filename = "Left"
   <-> exists pre post,
         filename = pre +:+ "(L)" +:+ post \/
         filename = pre +:+ "(l)" +:+ post) /\
  (get_arm_side filename = "Right"
   <-> ~ exists pre post,
           filename = pre +:+ "(L)" +:+ post \/
           filename = pre +:+ "(l)" +:+ post).
Proof.
  assert (Hc : contains "(L)" (upper filename) = true
               <-> exists pre post,
                     filename = pre +:+ "(L)" +:+ post \/
                     filename = pre +:+ "(l)" +:+ post).
  { rewrite contains_upper, orb_true_iff, !contains_spec. split.
    - intros [(pre & post & Hp)|(pre & post & Hp)]; exists pre, post; tauto.
    - intros (pre & post & [Hp|Hp]); [left | right]; by exists pre, post. }
  unfold get_arm_side.
  destruct (contains "(L)" (upper filename)).
  - split; [split; [intros _; by apply Hc | done] |].
    split; [done | intros Hn; exfalso; apply Hn; by apply Hc].
  - split; [split; [done | intros Hx; by apply Hc in Hx] |].
    split; [intros _ Hx; by apply Hc in Hx | done].
Qed.

(** ** Reading a recording *)

Section ExtractFacts.

Context {T : Type} `{Number T}.

Lemma has_cols_spec (names : list string) (cols : vec3 string) :
  has_cols names cols = true
  <-> c0 cols ∈ names /\ c1 cols ∈ names /\ c2 cols ∈ names.
Proof.
  unfold has_cols, vlist. cbn [forallb].
  rewrite !andb_true_iff, !bool_decide_eq_true. tauto.
Qed.

Lemma has_cols_missing (names : list string) (cols : vec3 string) :
  has_cols names cols = false
  <-> exists col, col ∈ vlist cols /\ col ∉ names.
Proof.
  split.
  - intros Hf. unfold vlist.
    destruct (decide (c0 cols ∈ names)) as [H0|H0];
      [| exists (c0 cols); split; [rewrite !elem_of_cons; tauto | done]].
    destruct (decide (c1 cols ∈ names)) as [H1|H1];
      [| exists (c1 cols); split; [rewrite !elem_of_cons; tauto | done]].
    destruct (decide (c2 cols ∈ names)) as [H2|H2];
      [| exists (c2 cols); split; [rewrite !elem_of_cons; tauto | done]].
    assert (Ht : has_cols names cols = true) by by apply has_cols_spec.
    congruence.
  - intros (col & Hin & Hout).
    destruct (has_cols names cols) eqn:E; [| done].
    apply has_cols_spec in E as (H0 & H1 & H2).
    unfold vlist in Hin. exfalso. apply Hout.
    apply elem_of_cons in Hin as [->|Hin]; [done |].
    apply elem_of_cons in Hin as [->|Hin]; [done |].
    apply elem_of_cons in Hin as [->|Hin]; [done |].
    by apply elem_of_nil in Hin.
Qed.

(** What [extract_hand_data] returns when it returns: the array made of the
    rows under the first complete schema. *)
Lemma extract_hand_data_values (filename : string) (df : table (cell_value T))
    (a : ndarray T) :
  extract_hand_data filename df = Extracted a ->
  exists cols,
    cols ∈ possible_cols (get_arm_side filename) /\
    has_cols (columns df) cols = true /\
    a = dropna_values
          (map (fun row : string -> cell_value T => vmap row cols) (records df)).
Proof.
  unfold extract_hand_data, selected_cols.
  destruct (find _ _) as [cols|] eqn:E; [| discriminate].
  intros [= <-]. apply find_some in E as [Hin Hc].
  exists cols. split; [by apply list_elem_of_In | by split].
Qed.

Lemma notna_spec (row : vec3 (cell_value T)) :
  notna row = true
  <-> cell_isnan (c0 row) = false /\ cell_isnan (c1 row) = false
      /\ cell_isnan (c2 row) = false.
Proof.
  unfold notna. rewrite !andb_true_iff, !negb_true_iff. tauto.
Qed.

Lemma int_row_spec (row : vec3 (cell_value T)) (v : vec3 Z) :
  int_row row = Some v <-> row = vmap IntCell v.
Proof.
  destruct row as [[x|x] [y|y] [z|z]], v as [a b c];
    unfold int_row, vmap; cbn [c0 c1 c2]; split; intros [=]; by subst.
Qed.

Lemma mapM_int_row (selected : list (vec3 (cell_value T))) (rows : list (vec3 Z)) :
  mapM int_row selected = Some rows <-> selected = map (vmap IntCell) rows.
Proof.
  rewrite mapM_Some. split.
  - induction 1 as [|row v selected rows Hrow _ IH]; [done |].
    cbn [map]. apply int_row_spec in Hrow. by rewrite Hrow, IH.
  - intros ->. induction rows as [|v rows IH]; constructor; [| done].
    by apply int_row_spec.
Qed.

(** The [float64] array of a selection: the rows that have no NaN cell, in
    their order, every one of them. *)
Lemma dropna_values_float (selected : list (vec3 (cell_value T))) :
  mapM int_row selected = None ->
  dropna_values selected
  = Mat (map (vmap cell_float) (List.filter notna selected)) /\
  List.filter notna selected `sublist_of` selected /\
  Forall (fun row => cell_isnan (c0 row) = false /\
                     cell_isnan (c1 row) = false /\
                     cell_isnan (c2 row) = false) (List.filter notna selected) /\
  (forall row, row ∈ selected -> notna row = true ->
               row ∈ List.filter notna selected).
Proof.
  intros Hnone. unfold dropna_values. rewrite Hnone.
  split; [reflexivity |]. split; [| split].
  - clear Hnone. induction selected as [|x l IH]; cbn [List.filter];
      [constructor |].
    destruct (notna x); by constructor.
  - apply Forall_forall. intros row Hrow%list_elem_of_In%filter_In.
    by apply notna_spec, Hrow.
  - intros row Hrow Hkeep. apply list_elem_of_In, filter_In.
    split; [by apply list_elem_of_In | done].
Qed.

End ExtractFacts.

(** X15.  [extract_hand_data] raises [KeyError] exactly when each of the
    three schemas (the Hand columns of the arm named by the file, the Wrist
    columns, the plain x, y, z) lacks at least one column in the table; in
    particular the Hand columns of the other arm are never accepted. *)
Theorem extract_hand_data_key_error :
  forall (T : Type) (N : Number T) (filename : string)
         (df : table (cell_value T)),
    extract_hand_data filename df = KeyError
    <-> forall cols, cols ∈ possible_cols (get_arm_side filename) ->
          exists col, col ∈ vlist cols /\ col ∉ columns df.
Proof.
  intros T N filename df. unfold extract_hand_data, selected_cols.
  destruct (find _ _) as [cols|] eqn:E.
  - apply find_some in E as [Hin Hc]. split; [discriminate |].
    intros Hall. apply list_elem_of_In, Hall, has_cols_missing in Hin.
    congruence.
  - split; [| reflexivity]. intros _ cols Hin.
    apply has_cols_missing.
    by apply (find_none _ _ E), list_elem_of_In.
Qed.

(** X16.  The arm read from the file name matters only for the Hand columns:
    a table that has the full Hand columns of neither arm is read the same
    under any two file names. *)
Theorem extract_hand_data_any_name (T : Type) (N : Number T)
    (filename1 filename2 : string) (df : table (cell_value T)) :
  has_cols (columns df) (V3 "Left Hand x" "Left Hand y" "Left Hand z") = false ->
  has_cols (columns df) (V3 "Right Hand x" "Right Hand y" "Right Hand z") = false ->
  extract_hand_data filename1 df = extract_hand_data filename2 df.
Proof.
  intros Hl Hr.
  assert (Hany : forall filename,
            selected_cols (get_arm_side filename) (columns df)
            = List.find (has_cols (columns df))
                [V3 "Wrist_x" "Wrist_y" "Wrist_z"; V3 "x" "y" "z"]).
  { intros filename. unfold selected_cols, possible_cols, get_arm_side.
    destruct (contains "(L)" (upper filename)); cbn [find].
    - change ("Left" +:+ " Hand x") with "Left Hand x".
      change ("Left" +:+ " Hand y") with "Left Hand y".
      change ("Left" +:+ " Hand z") with "Left Hand z".
      by rewrite Hl.
    - change ("Right" +:+ " Hand x") with "Right Hand x".
      change ("Right" +:+ " Hand y") with "Right Hand y".
      change ("Right" +:+ " Hand z") with "Right Hand z".
      by rewrite Hr. }
  unfold extract_hand_data. by rewrite !Hany.
Qed.

Lemma extract_hand_data_any_name_witness :
  extract_hand_data (T := float) "session (L).xlsx"
    (Table ["Frame"; "x"; "y"; "z"] [fun _ => FloatCell 1.5%float])
  = extract_hand_data "session.xlsx"
      (Table ["Frame"; "x"; "y"; "z"] [fun _ => FloatCell 1.5%float]).
Proof.
  apply (extract_hand_data_any_name float _ "session (L).xlsx" "session.xlsx"
           (Table ["Frame"; "x"; "y"; "z"] [fun _ => FloatCell 1.5%float]));
    vm_compute; reflexivity.
Defined.

(** X17.  The array [extract_hand_data] returns is N x 3.  When every cell
    under the selected columns is a whole number it is the [int64] array of
    all the rows.  Otherwise it is a [float64] array: the rows of the table
    under the selected columns, in their order, without the rows that have a
    NaN cell, every row without one kept, whole numbers converted; on
    binary64 numbers it contains no NaN. *)
Theorem extract_hand_data_dropna :
  (forall (T : Type) (N : Number T) (filename : string)
          (df : table (cell_value T)) (a : ndarray T),
     extract_hand_data filename df = Extracted a ->
     exists cols,
       cols ∈ possible_cols (get_arm_side filename) /\
       let selected :=
         map (fun row : string -> cell_value T => vmap row cols) (records df) in
       match a with
       | IMat rows => selected = map (vmap IntCell) rows
       | Mat values =>
           (exists row, row ∈ selected /\ int_row row = None) /\
           (length values <= length (records df))%nat /\
           exists kept,
             values = map (vmap cell_float) kept /\
             kept `sublist_of` selected /\
             Forall (fun row => cell_isnan (c0 row) = false /\
                                cell_isnan (c1 row) = false /\
                                cell_isnan (c2 row) = false) kept /\
             (forall row, row ∈ selected -> notna row = true -> row ∈ kept)
       | Vec _ | IVec _ => False
       end) /\
  (forall (filename : string) (df : table (cell_value float))
          (values : list (vec3 float)),
     extract_hand_data filename df = Extracted (Mat values) ->
     Forall (fun row => F64.is_nan (c0 row) = false /\
                        F64.is_nan (c1 row) = false /\
                        F64.is_nan (c2 row) = false) values).
Proof.
  split.
  - intros T N filename df a (cols & Hin & Hc & ->)%extract_hand_data_values.
    exists cols. split; [done |]. cbv zeta.
    set (selected := map _ (records df)).
    destruct (mapM int_row selected) as [rows|] eqn:Eint.
    + unfold dropna_values. rewrite Eint. by apply mapM_int_row.
    + destruct (dropna_values_float selected Eint) as (-> & Hsub & Hnan & Hall).
      split; [| split].
      * apply mapM_None_1, Exists_exists in Eint. exact Eint.
      * rewrite length_map.
        etransitivity; [apply List.filter_length_le |].
        subst selected. by rewrite length_map.
      * by exists (List.filter notna selected).
  - intros filename df values
      (cols & Hin & Hc & Ha)%extract_hand_data_values.
    set (selected := map _ (records df)) in Ha.
    destruct (mapM int_row selected) as [rows|] eqn:Eint;
      [unfold dropna_values in Ha; rewrite Eint in Ha; discriminate |].
    destruct (dropna_values_float selected Eint) as (Hv & _ & Hnan & _).
    rewrite Hv in Ha. injection Ha as ->.
    apply Forall_map. eapply Forall_impl; [exact Hnan |].
    assert (Hcell : forall c : cell_value float,
              cell_isnan c = false -> F64.is_nan (cell_float c) = false).
    { intros [z|x]; [intros _; apply of_int64_not_nan | done]. }
    intros [x y z] (H0 & H1 & H2). unfold vmap. cbn [c0 c1 c2] in *.
    auto.
Qed.

Lemma extract_hand_data_dropna_witness :
  let df := Table ["Wrist_x"; "Wrist_y"; "Wrist_z"]
              [fun col => if String.eqb col "Wrist_y" then FloatCell nan
                          else IntCell 1;
               fun col => if String.eqb col "Wrist_y" then FloatCell 2.5%float
                          else IntCell 3] in
  extract_hand_data "session.xlsx" df = Extracted (Mat [V3 3 2.5 3]%float) /\
  Forall (fun row => F64.is_nan (c0 row) = false /\
                     F64.is_nan (c1 row) = false /\
                     F64.is_nan (c2 row) = false) [V3 3 2.5 3]%float.
Proof.
  cbv zeta.
  assert (He : extract_hand_data "session.xlsx"
                 (Table ["Wrist_x"; "Wrist_y"; "Wrist_z"]
                    [fun col => if String.eqb col "Wrist_y" then FloatCell nan
                                else IntCell 1;
                     fun col => if String.eqb col "Wrist_y"
                                then FloatCell 2.5%float else IntCell 3])
               = Extracted (Mat [V3 3 2.5 3]%float)) by (vm_compute; reflexivity).
  split; [exact He |].
  exact (proj2 extract_hand_data_dropna _ _ _ He).
Defined.

(** ** The local server *)

Section LatestFile.

Local Open Scope R_scope.

Lemma py_max_by_spec {A : Type} (key : A -> R) (first : A) (rest : list A) :
  py_max_by key first rest ∈ first :: rest /\
  (forall x, x ∈ first :: rest -> key x <= key (py_max_by key first rest)).
Proof.
  revert first. induction rest as [|y rest IH]; intros first.
  - cbn. split; [apply elem_of_cons; by left |].
    intros x [->|Hx]%elem_of_cons; [lra | by apply elem_of_nil in Hx].
  - change (py_max_by key first (y :: rest))
      with (py_max_by key (if ltb (key first) (key y) then y else first) rest).
    cbn [ltb real_number].
    destruct (Real.ltb (key first) (key y)) eqn:E;
      [apply ltb_lt in E | apply ltb_nlt in E].
    + destruct (IH y) as [Hin Hmax]. split.
      * rewrite elem_of_cons. right. exact Hin.
      * intros x [->|Hx]%elem_of_cons; [| by apply Hmax].
        apply Rle_trans with (key y); [lra |].
        apply Hmax, elem_of_cons. by left.
    + destruct (IH first) as [Hin Hmax]. split.
      * apply elem_of_cons in Hin as [Hin|Hin]; rewrite !elem_of_cons; tauto.
      * intros x [->|[->|Hx]%elem_of_cons]%elem_of_cons.
        -- apply Hmax, elem_of_cons. by left.
        -- apply Rle_trans with (key first); [lra |].
           apply Hmax, elem_of_cons. by left.
        -- apply Hmax, elem_of_cons. by right.
Qed.

End LatestFile.

(** X18.  [latest_file_in] returns [None] exactly when no name of the folder
    ends with the extension; otherwise it returns the path of a listed name
    that ends with the extension, and no such file of the folder has a later
    modification time. *)
Theorem latest_file_in_newest :
  forall (path_join : string -> string -> string) (listdir : list string)
         (getmtime : string -> R) (folder extension : string),
    (latest_file_in path_join listdir getmtime folder extension = None
     <-> forall f, f ∈ listdir -> ~ exists pre, f = pre +:+ extension) /\
    (forall path,
       latest_file_in path_join listdir getmtime folder extension = Some path ->
       exists f,
         f ∈ listdir /\ (exists pre, f = pre +:+ extension) /\
         path = path_join folder f /\
         forall g, g ∈ listdir -> (exists pre, g = pre +:+ extension) ->
                   (getmtime (path_join folder g) <= getmtime path)%R).
Proof.
  intros path_join listdir getmtime folder extension.
  unfold latest_file_in.
  destruct (map (path_join folder) (List.filter (endswith extension) listdir))
    as [|p ps] eqn:Efiles.
  - split; [| discriminate]. split; [| reflexivity].
    intros _ f Hf Hext%endswith_spec.
    apply map_eq_nil in Efiles.
    assert (Hin : In f (List.filter (endswith extension) listdir))
      by (apply filter_In; split; [by apply list_elem_of_In | done]).
    by rewrite Efiles in Hin.
  - split.
    + split; [discriminate |]. intros Hnone. exfalso.
      assert (Hp : In p (map (path_join folder)
                           (List.filter (endswith extension) listdir)))
        by (rewrite Efiles; by left).
      apply in_map_iff in Hp as (f & _ & [Hf Hext]%filter_In).
      apply (Hnone f); [by apply list_elem_of_In | by apply endswith_spec].
    + intros path [= <-].
      destruct (py_max_by_spec getmtime p ps) as [Hin Hmax].
      rewrite <- Efiles in Hin, Hmax.
      apply list_elem_of_In, in_map_iff in Hin as (f & Hpath & [Hf Hext]%filter_In).
      exists f. split; [by apply list_elem_of_In |].
      split; [by apply endswith_spec |]. split; [done |].
      intros g Hg Hgext%endswith_spec.
      apply Hmax, list_elem_of_In, in_map, filter_In.
      split; [by apply list_elem_of_In | done].
Qed.

(** ** The [/analyze] route *)

Section AnalyzeFacts.

Context {T : Type} `{Number T}.

(** The pipeline on two arrays of any kind and for any aligner, in terms of
    its parts. *)
Lemma run_analysis_value (np_exp : T -> T)
    (dtw_path : list (vec3 T) -> list (vec3 T) -> Z ->
                result (list (nat * nat) * T))
    (ref_array pat_array : ndarray T) (sensitivity shape_limit_m : T) :
  value (run_analysis np_exp dtw_path 0 1 sensitivity shape_limit_m
           [ref_array; pat_array])
  = match value (calculate_mdtw_with_sensitivity np_exp dtw_path 0 1
                   sensitivity 10 [ref_array; pat_array]) with
    | Ok r =>
        match rom_metrics_of ref_array pat_array with
        | Ok rom =>
            let grades := map get_rom_grade (vlist rom.2) in
            match np_mean_grades grades with
            | Ok avg =>
                Ok (Analysis r.1.1 r.1.2 r.2 rom.1 rom.2 grades avg
                             (get_shape_grade r.1.2 shape_limit_m))
            | Raise e => Raise e
            end
        | Raise e => Raise e
        end
    | Raise e => Raise e
    end.
Proof.
  unfold run_analysis, rom_metrics_of, calculate_mdtw_with_sensitivity.
  destruct ref_array as [[|x xs]|x|[|x xs]|x],
           pat_array as [[|y ys]|y|[|y ys]|y];
    try reflexivity;
    unfold np_mean_axis0, np_subtract, read_rows, read_axes, read, read_mat,
      alloc, lift, mbind, M_bind, bind, mret, M_ret, ret, raise;
    cbn [lookup list_lookup app length];
    cbv beta iota;
    (destruct (dtw_path _ _ _) as [aligned|e]; [| reflexivity]);
    (destruct (fold_left _ _ _) as [sq_err|e]; [| reflexivity]);
    try reflexivity;
    unfold calculate_rom_metrics, np_ptp, setitem_where_zero, np_divide,
      np_mean, read_axes, read, read_vec, write, alloc, value, mbind, M_bind,
      bind, mret, M_ret, ret;
    cbn [lookup list_lookup app length insert list_insert fst snd];
    cbv beta iota;
    (destruct (np_mean_grades _) as [avg|e]; reflexivity).
Qed.


Lemma np_mean_grades_some (grades : list (option Z)) (avg : T) :
  np_mean_grades grades = Ok avg -> Forall is_Some grades.
Proof.
  intros Havg. apply Forall_forall. intros [g|] Hg; [by exists g |].
  apply list_elem_of_In in Hg.
  rewrite (np_mean_grades_none grades Hg) in Havg. discriminate.
Qed.

Lemma missing_spec {J : Type} (py_truth : J -> bool) (name : option J) :
  missing py_truth name = true
  <-> name = None \/ exists v, name = Some v /\ py_truth v = false.
Proof.
  destruct name as [v|]; cbn [missing].
  - rewrite negb_true_iff. split.
    + intros Hv. right. by exists v.
    + by intros [|(? & [= <-] & ?)].
  - split; [by left | done].
Qed.

Lemma float_field_none {J : Type} (py_float : J -> option T)
    (default_value : T) (field : option J) :
  float_field py_float default_value field = None
  <-> exists v, field = Some v /\ py_float v = None.
Proof.
  destruct field as [v|]; cbn [float_field].
  - split; [by exists v | by intros (? & [= <-] & ?)].
  - split; [done | by intros (? & ? & ?)].
Qed.

(** A 200 answer comes from a run of the pipeline on the two extracted
    arrays, after both numbers of the request have been converted and both
    names found to be texts. *)
Lemma analyze_ok_run
    (path_join : string -> string -> string) (basename : string -> string)
    (path_exists : string -> bool)
    (read_table : string -> option (table (cell_value T)))
    (build_comparison_figure : ndarray T -> ndarray T -> analysis T -> bool)
    (J : Type) (py_float : J -> option T) (py_truth : J -> bool)
    (py_str : J -> option string)
    (np_exp : T -> T)
    (dtw_path : list (vec3 T) -> list (vec3 T) -> Z ->
                result (list (nat * nat) * T))
    (OUTPUT_FOLDER TEMPLATES_FOLDER : string) (data : request J)
    (answer : analysis T) :
  analyze path_join basename path_exists read_table build_comparison_figure
    py_float py_truth py_str np_exp dtw_path OUTPUT_FOLDER TEMPLATES_FOLDER
    data = Ok200 answer ->
  exists patient template ref_data pat_data sensitivity shape_tolerance,
    patient_file data ≫= py_str = Some patient /\
    template_file data ≫= py_str = Some template /\
    float_field py_float (lit 3.0) (sensitivity_field data) = Some sensitivity /\
    float_field py_float (lit 0.20) (shape_tolerance_field data)
    = Some shape_tolerance /\
    load basename read_table (path_join TEMPLATES_FOLDER template)
    = Extracted ref_data /\
    load basename read_table (path_join OUTPUT_FOLDER patient)
    = Extracted pat_data /\
    value (run_analysis np_exp dtw_path 0 1 sensitivity shape_tolerance
             [ref_data; pat_data]) = Ok answer.
Proof.
  unfold analyze.
  destruct (float_field py_float (lit 3.0) _) as [sensitivity|];
    [| discriminate].
  destruct (float_field py_float (lit 0.20) _) as [shape_tolerance|];
    [| discriminate].
  destruct (missing py_truth (patient_file data)
            || missing py_truth (template_file data)); [discriminate |].
  destruct (patient_file data ≫= py_str) as [patient|]; [| discriminate].
  destruct (template_file data ≫= py_str) as [template|]; [| discriminate].
  cbv zeta.
  destruct (negb (path_exists _)); [discriminate |].
  destruct (negb (path_exists _)); [discriminate |].
  destruct (load _ _ (path_join TEMPLATES_FOLDER template))
    as [ref_data| |] eqn:Eref; [| discriminate..].
  destruct (load _ _ (path_join OUTPUT_FOLDER patient))
    as [pat_data| |] eqn:Epat; [| discriminate..].
  destruct (value _) as [r|e] eqn:Erun; [| discriminate].
  destruct (build_comparison_figure _ _ _); [| discriminate].
  intros [= <-].
  by exists patient, template, ref_data, pat_data, sensitivity, shape_tolerance.
Qed.

End AnalyzeFacts.

(** X19.  The checks of [/analyze] come in a fixed order.  First the two
    numbers of the request are converted: when [float] raises on one that is
    given, the exception leaves the route and the server answers 500,
    whatever the names and the files are.  Then a request whose patient or
    template name is absent or counts as false is answered 400, whatever the
    files are.  Then the two paths are joined: a name that is not a text
    makes the join raise, and the server answers 500.  With two texts, a
    missing patient file is answered 404 before the template is looked at,
    then a missing template file is answered 404; and once both files exist
    the route answers 200 or its own 500: no exception of the engine leaves
    it. *)
Theorem analyze_checks_in_order :
  forall (T : Type) (N : Number T)
         (path_join : string -> string -> string) (basename : string -> string)
         (path_exists : string -> bool)
         (read_table : string -> option (table (cell_value T)))
         (build_comparison_figure :
            ndarray T -> ndarray T -> analysis T -> bool)
         (J : Type) (py_float : J -> option T) (py_truth : J -> bool)
         (py_str : J -> option string)
         (np_exp : T -> T)
         (dtw_path : list (vec3 T) -> list (vec3 T) -> Z ->
                     result (list (nat * nat) * T))
         (OUTPUT_FOLDER TEMPLATES_FOLDER : string) (data : request J),
    let answer :=
      analyze path_join basename path_exists read_table
        build_comparison_figure py_float py_truth py_str np_exp dtw_path
        OUTPUT_FOLDER TEMPLATES_FOLDER data in
    let bad_number :=
      (exists v, sensitivity_field data = Some v /\ py_float v = None) \/
      (exists v, shape_tolerance_field data = Some v /\ py_float v = None) in
    let no_name :=
      (patient_file data = None \/
       exists v, patient_file data = Some v /\ py_truth v = false) \/
      (template_file data = None \/
       exists v, template_file data = Some v /\ py_truth v = false) in
    let bad_name :=
      (exists v, patient_file data = Some v /\ py_str v = None) \/
      (exists v, template_file data = Some v /\ py_str v = None) in
    (answer = InternalServerError500
     <-> bad_number \/ (~ no_name /\ bad_name)) /\
    ((exists error, answer = BadRequest400 error)
     <-> ~ bad_number /\ no_name) /\
    (forall patient template,
       ~ bad_number -> ~ no_name ->
       patient_file data ≫= py_str = Some patient ->
       template_file data ≫= py_str = Some template ->
       (path_exists (path_join OUTPUT_FOLDER patient) = false ->
        answer = NotFound404 ("Patient file not found: " +:+ patient)) /\
       (path_exists (path_join OUTPUT_FOLDER patient) = true ->
        path_exists (path_join TEMPLATES_FOLDER template) = false ->
        answer = NotFound404 ("Template file not found: " +:+ template)) /\
       (path_exists (path_join OUTPUT_FOLDER patient) = true ->
        path_exists (path_join TEMPLATES_FOLDER template) = true ->
        answer = ServerError500 \/ exists result, answer = Ok200 result)).
Proof.
  intros T N path_join basename path_exists read_table build_comparison_figure
    J py_float py_truth py_str np_exp dtw_path OUTPUT_FOLDER TEMPLATES_FOLDER
    data answer bad_number no_name bad_name.
  assert (Hbad : bad_number
                 <-> float_field py_float (lit 3.0) (sensitivity_field data)
                     = None
                     \/ float_field py_float (lit 0.20)
                          (shape_tolerance_field data) = None).
  { subst bad_number. by rewrite !float_field_none. }
  assert (Hname : no_name
                  <-> missing py_truth (patient_file data)
                      || missing py_truth (template_file data) = true).
  { subst no_name. by rewrite orb_true_iff, !missing_spec. }
  assert (Hstr : forall name : option J,
            name ≫= py_str = None
            <-> name = None \/ exists v, name = Some v /\ py_str v = None).
  { intros [v|]; cbn; [| by split; [left |]].
    split; [intros Hv; right; by exists v | by intros [|(? & [= <-] & ?)]]. }
  subst answer. unfold analyze.
  destruct (float_field py_float (lit 3.0) _) as [sensitivity|];
    [| split; [| split]].
  2: { split; [intros _; left; apply Hbad; by left | done]. }
  2: { split; [by intros [error He] | intros [Hn _]; exfalso; apply Hn, Hbad;
                                      by left]. }
  2: { intros patient template Hn. exfalso. apply Hn, Hbad. by left. }
  destruct (float_field py_float (lit 0.20) _) as [shape_tolerance|];
    [| split; [| split]].
  2: { split; [intros _; left; apply Hbad; by right | done]. }
  2: { split; [by intros [error He] | intros [Hn _]; exfalso; apply Hn, Hbad;
                                      by right]. }
  2: { intros patient template Hn. exfalso. apply Hn, Hbad. by right. }
  assert (Hgood : ~ bad_number) by (rewrite Hbad; by intros [|]).
  destruct (missing py_truth (patient_file data)
            || missing py_truth (template_file data)) eqn:Em.
  { assert (Hno : no_name) by by apply Hname.
    split; [| split].
    - split; [discriminate | intros [Hb|[Hn _]]; [by destruct Hgood | by destruct Hn]].
    - split; [by intros _ | by eauto].
    - intros patient template _ Hn. by destruct Hn. }
  assert (Hyes : ~ no_name) by (rewrite Hname; congruence).
  assert (Hpresent : forall name : option J,
            missing py_truth name = false -> name <> None).
  { by intros [v|]. }
  apply orb_false_iff in Em as [Emp Emt].
  destruct (patient_file data ≫= py_str) as [patient|] eqn:Ep.
  2: { apply Hstr in Ep as [Ep|Ep]; [by apply Hpresent in Emp |].
       split; [| split].
       - split; [intros _; right; split; [done | by left] | done].
       - split; [by intros [error He] | by intros [_ Hn]].
       - by intros patient template _ _. }
  destruct (template_file data ≫= py_str) as [template|] eqn:Et.
  2: { apply Hstr in Et as [Et|Et]; [by apply Hpresent in Emt |].
       split; [| split].
       - split; [intros _; right; split; [done | by right] | done].
       - split; [by intros [error He] | by intros [_ Hn]].
       - by intros patient' template _ _ _. }
  assert (Hnames : ~ bad_name).
  { subst bad_name. intros [(v & Hv & Hs)|(v & Hv & Hs)].
    - rewrite Hv in Ep. cbn in Ep. congruence.
    - rewrite Hv in Et. cbn in Et. congruence. }
  cbv zeta.
  split; [| split].
  - split; [| intros [Hb|[_ Hb]]; [by destruct Hgood | by destruct Hnames]].
    destruct (negb (path_exists _)); [discriminate |].
    destruct (negb (path_exists _)); [discriminate |].
    destruct (load _ _ _) as [ref_data| |]; [| discriminate..].
    destruct (load _ _ _) as [pat_data| |]; [| discriminate..].
    destruct (value _) as [result|e]; [| discriminate].
    destruct (build_comparison_figure _ _ _); discriminate.
  - split; [| by intros [_ Hn]].
    intros [error He]. exfalso.
    destruct (negb (path_exists _)); [discriminate |].
    destruct (negb (path_exists _)); [discriminate |].
    destruct (load _ _ _) as [ref_data| |]; [| discriminate..].
    destruct (load _ _ _) as [pat_data| |]; [| discriminate..].
    destruct (value _) as [result|e]; [| discriminate].
    destruct (build_comparison_figure _ _ _); discriminate.
  - intros patient' template' _ _ [= <-] [= <-].
    split; [| split].
    + by intros ->.
    + by intros -> ->.
    + intros -> ->. cbn [negb].
      destruct (load _ _ _) as [ref_data| |]; [| by left..].
      destruct (load _ _ _) as [pat_data| |]; [| by left..].
      destruct (value _) as [result|e]; [| by left].
      destruct (build_comparison_figure _ _ _); [right; eauto | by left].
Qed.



Section FloatRatios.

Lemma get_rom_grade_of_nan (ratio : float) :
  F64.is_nan ratio = true -> get_rom_grade ratio = None.
Proof.
  intros Hnan. unfold get_rom_grade. cbn [ltb leb lit float_number].
  rewrite !(nan_ltb_l ratio), !(nan_ltb_r _ ratio) by done.
  rewrite !(nan_leb_r _ ratio) by done.
  reflexivity.
Qed.

Lemma get_rom_grade_float_some (ratio : float) (g : option Z) :
  get_rom_grade ratio = g -> is_Some g ->
  F64.is_nan ratio = false /\ exists z, g = Some z /\ In z [0; 7; 8; 9; 10]%Z.
Proof.
  intros <- Hsome. destruct (F64.is_nan ratio) eqn:Enan.
  - rewrite get_rom_grade_of_nan in Hsome by done. by destruct Hsome.
  - split; [done |]. by apply get_rom_grade_float_total.
Qed.

End FloatRatios.

(** X21.  On binary64 numbers, a 200 answer of [/analyze] has no NaN among
    its three range ratios, each axis grade is one of 0, 7, 8, 9, 10 and the
    shape grade one of 0, 6, 7, 8, 9, 10: a recording that would give a NaN
    ratio is answered 500. *)
Theorem analyze_ok_has_grades
    (path_join : string -> string -> string) (basename : string -> string)
    (path_exists : string -> bool)
    (read_table : string -> option (table (cell_value float)))
    (build_comparison_figure :
       ndarray float -> ndarray float -> analysis float -> bool)
    (J : Type) (py_float : J -> option float) (py_truth : J -> bool)
    (py_str : J -> option string)
    (np_exp : float -> float)
    (dtw_path : list (vec3 float) -> list (vec3 float) -> Z ->
                result (list (nat * nat) * float))
    (OUTPUT_FOLDER TEMPLATES_FOLDER : string) (data : request J)
    (result : analysis float) :
  analyze path_join basename path_exists read_table build_comparison_figure
    py_float py_truth py_str np_exp dtw_path OUTPUT_FOLDER TEMPLATES_FOLDER
    data = Ok200 result ->
  (F64.is_nan (c0 (rom_ratios result)) = false /\
   F64.is_nan (c1 (rom_ratios result)) = false /\
   F64.is_nan (c2 (rom_ratios result)) = false) /\
  (exists g1 g2 g3,
     rom_axis_grades result = [Some g1; Some g2; Some g3] /\
     In g1 [0; 7; 8; 9; 10]%Z /\ In g2 [0; 7; 8; 9; 10]%Z /\
     In g3 [0; 7; 8; 9; 10]%Z) /\
  In (shape_grade result) [0; 6; 7; 8; 9; 10]%Z.
Proof.
  intros (patient & template & ref_data & pat_data & sensitivity &
          shape_tolerance & Hp & Ht & Hs & Hl & Href & Hpat &
          Hrun)%analyze_ok_run.
  rewrite run_analysis_value in Hrun.
  destruct (value (calculate_mdtw_with_sensitivity _ _ _ _ _ _ _))
    as [[[sc g] ax]|e] eqn:Emdtw; [| discriminate].
  destruct (rom_metrics_of ref_data pat_data) as [[avg_ratio ratios]|e] eqn:Erom;
    [| discriminate].
  cbv zeta in Hrun. cbn [fst snd] in Hrun.
  destruct (np_mean_grades _) as [avg|e] eqn:Eavg; [| discriminate].
  injection Hrun as <-.
  cbn [score global_rmse axis_rmse rom_ratio rom_ratios rom_axis_grades
       shape_grade].
  apply np_mean_grades_some in Eavg. unfold vlist in *. cbn [map] in *.
  apply Forall_cons in Eavg as [H0 Eavg].
  apply Forall_cons in Eavg as [H1 Eavg].
  apply Forall_cons in Eavg as [H2 _].
  destruct (get_rom_grade_float_some _ _ eq_refl H0) as (N0 & z0 & E0 & I0).
  destruct (get_rom_grade_float_some _ _ eq_refl H1) as (N1 & z1 & E1 & I1).
  destruct (get_rom_grade_float_some _ _ eq_refl H2) as (N2 & z2 & E2 & I2).
  split; [done |]. split.
  - exists z0, z1, z2. by rewrite E0, E1, E2.
  - unfold get_shape_grade.
    destruct (ltb _ _); [cbn; tauto |].
    repeat match goal with
      | |- context [leb ?a ?b] => destruct (leb a b)
      end; cbn; tauto.
Qed.

Lemma analyze_ok_has_grades_witness :
  let rows := map (fun (v : vec3 float) (col : string) =>
                     FloatCell (if String.eqb col "Wrist_x" then (c0 v + 0.5)%float
                                else 0.25%float))
                  line3 in
  let answer :=
    analyze (fun folder name => folder +:+ "/" +:+ name) (fun path => path)
      (fun _ => true)
      (fun _ => Some (Table ["Wrist_x"; "Wrist_y"; "Wrist_z"] rows))
      (fun _ _ _ => true)
      (fun v : string + float =>
         match v with inr x => Some x | inl _ => None end)
      (fun v => match v with
                | inl s => negb (String.eqb s "")
                | inr x => negb (PrimFloat.eqb x 0)
                end)
      (fun v => match v with inl s => Some s | inr _ => None end)
      (fun _ => 1%float)
      banded_dtw "output_excel" "templates"
      (Request (Some (inl "pose (L).xlsx")) (Some (inl "template.xlsx"))
               (Some (inr 3%float)) (Some (inr 0.10%float))) in
  exists result,
    answer = Ok200 result /\
    In (shape_grade result) [0; 6; 7; 8; 9; 10]%Z.
Proof.
  cbv zeta.
  set (answer := analyze _ _ _ _ _ _ _ _ _ _ _ _ _).
  assert (He : exists result, answer = Ok200 result)
    by (vm_compute; eexists; reflexivity).
  destruct He as [result He]. exists result. split; [exact He |].
  exact (proj2 (proj2
    (analyze_ok_has_grades _ _ _ _ _ _ _ _ _ _ _ _ _ _ _ He))).
Defined.

(** ** The order of the samples *)

Section Order.

Local Open Scope R_scope.

Lemma fold_max_in (l : list R) (a : R) : In (fold_left Rmax l a) (a :: l).
Proof.
  revert a. induction l as [|x l IH]; intros a; [by left |].
  cbn [fold_left]. destruct (IH (Rmax a x)) as [Hm|Hm].
  - rewrite <- Hm. unfold Rmax. destruct (Rle_dec a x); [right | ]; by left.
  - by right; right.
Qed.

Lemma fold_max_upper (l : list R) (a z : R) :
  In z (a :: l) -> z <= fold_left Rmax l a.
Proof.
  revert a. induction l as [|x l IH]; intros a.
  - intros [->|[]]. cbn. lra.
  - cbn [fold_left]. intros [->|[->|Hz]].
    + apply Rle_trans with (Rmax z x); [apply Rmax_l | apply fold_max_ge].
    + apply Rle_trans with (Rmax a z); [apply Rmax_r | apply fold_max_ge].
    + apply IH. by right.
Qed.

Lemma fold_min_in (l : list R) (a : R) : In (fold_left Rmin l a) (a :: l).
Proof.
  revert a. induction l as [|x l IH]; intros a; [by left |].
  cbn [fold_left]. destruct (IH (Rmin a x)) as [Hm|Hm].
  - rewrite <- Hm. unfold Rmin. destruct (Rle_dec a x); [| right]; by left.
  - by right; right.
Qed.

Lemma fold_min_lower (l : list R) (a z : R) :
  In z (a :: l) -> fold_left Rmin l a <= z.
Proof.
  revert a. induction l as [|x l IH]; intros a.
  - intros [->|[]]. cbn. lra.
  - cbn [fold_left]. intros [->|[->|Hz]].
    + apply Rle_trans with (Rmin z x); [apply fold_min_le | apply Rmin_l].
    + apply Rle_trans with (Rmin a z); [apply fold_min_le | apply Rmin_r].
    + apply IH. by right.
Qed.

Lemma fold_max_perm (l l' : list R) (a b : R) :
  Permutation (a :: l) (b :: l') -> fold_left Rmax l a = fold_left Rmax l' b.
Proof.
  intros Hp. apply Rle_antisym.
  - apply fold_max_upper, (Permutation_in _ Hp), fold_max_in.
  - apply fold_max_upper, (Permutation_in _ (Permutation_sym Hp)), fold_max_in.
Qed.

Lemma fold_min_perm (l l' : list R) (a b : R) :
  Permutation (a :: l) (b :: l') -> fold_left Rmin l a = fold_left Rmin l' b.
Proof.
  intros Hp. apply Rle_antisym.
  - apply fold_min_lower, (Permutation_in _ (Permutation_sym Hp)), fold_min_in.
  - apply fold_min_lower, (Permutation_in _ Hp), fold_min_in.
Qed.

Lemma peak_to_peak_perm (x y : vec3 R) (xs ys : list (vec3 R)) :
  Permutation (x :: xs) (y :: ys) -> peak_to_peak x xs = peak_to_peak y ys.
Proof.
  intros Hp. rewrite !peak_to_peak_real.
  pose proof (Permutation_map c0 Hp) as H0.
  pose proof (Permutation_map c1 Hp) as H1.
  pose proof (Permutation_map c2 Hp) as H2.
  cbn [map] in H0, H1, H2.
  by rewrite (fold_max_perm _ _ _ _ H0), (fold_min_perm _ _ _ _ H0),
    (fold_max_perm _ _ _ _ H1), (fold_min_perm _ _ _ _ H1),
    (fold_max_perm _ _ _ _ H2), (fold_min_perm _ _ _ _ H2).
Qed.

End Order.

(** X22.  The ROM metrics look at the extent of each recording only, not at
    the order of its samples: recordings with the same samples in another
    order (a movement played backwards, say) give the same ratios and the
    same mean. *)
Theorem rom_metrics_any_order (ref_data ref_data' pat_data pat_data' : list (vec3 R)) :
  Permutation ref_data ref_data' -> Permutation pat_data pat_data' ->
  rom_metrics ref_data' pat_data' = rom_metrics ref_data pat_data.
Proof.
  intros Hr Hp.
  destruct ref_data as [|x xs].
  { apply Permutation_nil in Hr as ->. reflexivity. }
  destruct ref_data' as [|x' xs'].
  { apply Permutation_sym, Permutation_nil in Hr. discriminate. }
  destruct pat_data as [|y ys].
  { apply Permutation_nil in Hp as ->. reflexivity. }
  destruct pat_data' as [|y' ys'].
  { apply Permutation_sym, Permutation_nil in Hp. discriminate. }
  rewrite !rom_metrics_value. unfold range_ratios, guarded_range.
  by rewrite (peak_to_peak_perm _ _ _ _ Hr), (peak_to_peak_perm _ _ _ _ Hp).
Qed.

Lemma rom_metrics_any_order_witness :
  rom_metrics (rev line3_real) (rev line3_real)
  = rom_metrics line3_real line3_real.
Proof.
  apply (rom_metrics_any_order line3_real (rev line3_real)
           line3_real (rev line3_real)); apply Permutation_rev.
Defined.
